(** * The record filter of the form-builder app (Record screen)

    A shallow embedding of [applyFilter], [fetchRecords] and [handleDelete]
    of the [Record] component, together with the part of the JavaScript
    runtime these functions call: property lookup on a plain object,
    [String(v)], [isNaN(v)], [parseFloat(v)], [toLowerCase], [includes],
    [startsWith], [Array.prototype.filter/every/some] and the comparison
    operators on numbers.

    Conventions of the model.
    - A JavaScript string is a sequence of UTF-16 code units.  The model
      covers the strings whose code units are all below 256 (Latin-1): one
      [ascii] of a [string] is one code unit.
    - A JavaScript number is a binary64 float, here a [spec_float] at
      precision 53 and maximal exponent 1024.
    - A field value is one of the kinds of the data model (string, number,
      boolean, null, geo-point object), or what a property lookup on a plain
      object can produce in addition: [undefined], or a member inherited from
      [Object.prototype].  None of these makes [String], [isNaN] or
      [parseFloat] throw, so the evaluation of a criterion is a total
      function to [bool].
    - The component's state is the pair ([records], [originalRecords]); the
      two state updates of one handler are taken together. *)

From Stdlib Require Import ZArith List String Ascii Bool Lia.
From Corelib Require Import SpecFloat.
Import ListNotations.

Local Open Scope string_scope.
Local Open Scope Z_scope.

(** ** Strings *)

Module JsString.

Definition code (c : ascii) : N := N_of_ascii c.

(** Simple lower-case mapping of one Latin-1 code unit: [A-Z] and the
    capital letters U+00C0..U+00DE other than the multiplication sign
    U+00D7 move up by 32. *)
Definition lowerChar (c : ascii) : ascii :=
  let n := code c in
  if ((65 <=? n) && (n <=? 90))%N then ascii_of_N (n + 32)
  else if ((192 <=? n) && (n <=? 222) && negb (n =? 215))%N
       then ascii_of_N (n + 32)
  else c.

(** [s.toLowerCase()] *)
Fixpoint toLowerCase (s : string) : string :=
  match s with
  | EmptyString => EmptyString
  | String c s' => String (lowerChar c) (toLowerCase s')
  end.

(** [s.startsWith(t)] *)
Fixpoint startsWith (s t : string) {struct t} : bool :=
  match t with
  | EmptyString => true
  | String b t' =>
      match s with
      | EmptyString => false
      | String a s' => Ascii.eqb a b && startsWith s' t'
      end
  end.

(** [s.includes(t)]: some position of [s] starts an occurrence of [t]. *)
Fixpoint includes (s t : string) : bool :=
  startsWith s t ||
  match s with
  | EmptyString => false
  | String _ s' => includes s' t
  end.

(** White space and line terminators among the Latin-1 code units:
    TAB, LF, VT, FF, CR, SP and NBSP. *)
Definition isWhiteSpace (c : ascii) : bool :=
  let n := code c in
  (((9 <=? n) && (n <=? 13)) || (n =? 32) || (n =? 160))%N.

Fixpoint trimStart (s : string) : string :=
  match s with
  | EmptyString => EmptyString
  | String c s' => if isWhiteSpace c then trimStart s' else s
  end.

(** [trimEnd] drops a trailing run of white space: a suffix is kept from
    its first code unit on as soon as something other than white space
    follows. *)
Fixpoint trimEnd (s : string) : string :=
  match s with
  | EmptyString => EmptyString
  | String c s' =>
      match trimEnd s' with
      | EmptyString => if isWhiteSpace c then EmptyString else String c EmptyString
      | r => String c r
      end
  end.

Definition trim (s : string) : string := trimEnd (trimStart s).

Definition isDigit (c : ascii) : bool :=
  let n := code c in ((48 <=? n) && (n <=? 57))%N.

Definition digitValue (c : ascii) : Z := Z.of_N (code c) - 48.

End JsString.

(** ** Numbers *)

Module JsNumber.
Import JsString.

(** A Number value: a binary64 float. *)
Definition number : Set := spec_float.

Definition prec : Z := 53.
Definition emax : Z := 1024.

Definition NaN : number := S754_nan.

Definition isNaN (x : number) : bool :=
  match x with S754_nan => true | _ => false end.

(** [x === y], [x < y] and [x <= y] on numbers; [x > y] is [ltb y x] and
    [x >= y] is [leb y x].  Every comparison with NaN is false. *)
Definition eqb (x y : number) : bool := SFeqb x y.
Definition ltb (x y : number) : bool := SFltb x y.
Definition leb (x y : number) : bool := SFleb x y.

(** The Number value of the decimal [(-1)^neg * m * 10^e], [0 <= m]:
    the quotient of two integers rounded to nearest, ties to even. *)
Definition ofDecimal (neg : bool) (m e : Z) : number :=
  match m with
  | Zpos _ =>
      let num := m * 10 ^ Z.max e 0 in
      let den := 10 ^ Z.max (- e) 0 in
      let '(q, e2, l) := SFdiv_core_binary prec emax num 0 den 0 in
      binary_round_aux prec emax neg q e2 l
  | _ => S754_zero neg
  end.

(** *** Reading a decimal literal (StrDecimalLiteral) *)

(** A maximal run of decimal digits: the value read so far, the number of
    digits read, and the rest. *)
Fixpoint readDigits (s : string) (acc n : Z) : Z * Z * string :=
  match s with
  | String c s' =>
      if isDigit c then readDigits s' (10 * acc + digitValue c) (n + 1)
      else (acc, n, s)
  | EmptyString => (acc, n, s)
  end.

(** An optional sign: whether it is [-], and what follows it. *)
Definition readSign (s : string) : bool * string :=
  match s with
  | String c r =>
      if Ascii.eqb c "-" then (true, r)
      else if Ascii.eqb c "+" then (false, r)
      else (false, s)
  | EmptyString => (false, s)
  end.

(** ExponentPart: [e] or [E], an optional sign and at least one digit;
    nothing is consumed when no digit follows. *)
Definition readExponent (s : string) : Z * string :=
  match s with
  | String c s1 =>
      if Ascii.eqb c "e" || Ascii.eqb c "E" then
        let '(neg, s2) := readSign s1 in
        let '(v, n, s3) := readDigits s2 0 0 in
        if n =? 0 then (0, s) else (if neg then - v else v, s3)
      else (0, s)
  | EmptyString => (0, s)
  end.

Fixpoint dropChars (n : nat) (s : string) : string :=
  match n, s with
  | S n', String _ s' => dropChars n' s'
  | _, _ => s
  end.

(** The digits [D+] read, [m1] from [n1 > 0] of them, with [s1] after
    them: the literal [D+ exp?]. *)
Definition readWhole (neg : bool) (m1 n1 : Z) (s1 : string)
    : option (number * string) :=
  if n1 =? 0 then None
  else
    let '(e, s4) := readExponent s1 in
    Some (ofDecimal neg m1 e, s4).

(** The same with a point and [s2] after it: the literals [D+ . D* exp?]
    and [. D+ exp?]. *)
Definition readFraction (neg : bool) (m1 n1 : Z) (s2 : string)
    : option (number * string) :=
  let '(m2, n2, s3) := readDigits s2 m1 0 in
  if (n1 =? 0) && (n2 =? 0) then None
  else
    let '(e, s4) := readExponent s3 in
    Some (ofDecimal neg m2 (e - n2), s4).

(** StrUnsignedDecimalLiteral: [Infinity], [D+ . D* exp?], [. D+ exp?]
    or [D+ exp?]; the longest such prefix of [s] and what follows it. *)
Definition readUnsigned (neg : bool) (s : string) : option (number * string) :=
  if startsWith s "Infinity" then Some (S754_infinity neg, dropChars 8 s)
  else
    let '(m1, n1, s1) := readDigits s 0 0 in
    match s1 with
    | String c s2 =>
        if Ascii.eqb c "." then readFraction neg m1 n1 s2
        else readWhole neg m1 n1 s1
    | EmptyString => readWhole neg m1 n1 s1
    end.

Definition readDecimal (s : string) : option (number * string) :=
  let '(neg, s') := readSign s in readUnsigned neg s'.

(** [parseFloat] on a string: leading white space is skipped, the longest
    prefix that is a decimal literal is read, the rest is ignored. *)
Definition parseFloatString (s : string) : number :=
  match readDecimal (trimStart s) with
  | Some (x, _) => x
  | None => NaN
  end.

(** *** Number("...") (StringToNumber) *)

Definition radixDigit (base : Z) (c : ascii) : option Z :=
  let n := Z.of_N (code c) in
  let v :=
    if (48 <=? n) && (n <=? 57) then n - 48
    else if (97 <=? n) && (n <=? 102) then n - 87
    else if (65 <=? n) && (n <=? 70) then n - 55
    else base in
  if v <? base then Some v else None.

Fixpoint readRadix (base : Z) (s : string) (acc : Z) : option Z :=
  match s with
  | EmptyString => Some acc
  | String c s' =>
      match radixDigit base c with
      | Some v => readRadix base s' (base * acc + v)
      | None => None
      end
  end.

(** NonDecimalIntegerLiteral: [0x], [0o] or [0b] (either case) and at
    least one digit of that radix; no sign. *)
Definition readNonDecimal (s : string) : option Z :=
  match s with
  | String "0" (String r (String c s')) =>
      let digits := String c s' in
      if Ascii.eqb r "x" || Ascii.eqb r "X" then readRadix 16 digits 0
      else if Ascii.eqb r "o" || Ascii.eqb r "O" then readRadix 8 digits 0
      else if Ascii.eqb r "b" || Ascii.eqb r "B" then readRadix 2 digits 0
      else None
  | _ => None
  end.

(** White space is trimmed at both ends; the empty string is [+0]; the
    whole of what is left has to be a decimal literal or a non-decimal
    integer literal, anything else is NaN. *)
Definition stringToNumber (s : string) : number :=
  match trim s with
  | EmptyString => S754_zero false
  | t =>
      match readDecimal t with
      | Some (x, EmptyString) => x
      | _ =>
          match readNonDecimal t with
          | Some n => ofDecimal false n 0
          | None => NaN
          end
      end
  end.

(** *** Number::toString *)

(** Structural equality of two floats. *)
Definition sameNumber (x y : number) : bool :=
  match x, y with
  | S754_nan, S754_nan => true
  | S754_zero a, S754_zero b => Bool.eqb a b
  | S754_infinity a, S754_infinity b => Bool.eqb a b
  | S754_finite a m e, S754_finite b m' e' =>
      Bool.eqb a b && Pos.eqb m m' && Z.eqb e e'
  | _, _ => false
  end.

Fixpoint digitsOfPos (fuel : nat) (n : Z) (acc : string) : string :=
  match fuel with
  | O => acc
  | S fuel' =>
      let acc' := String (ascii_of_N (Z.to_N (48 + n mod 10))) acc in
      if n <? 10 then acc' else digitsOfPos fuel' (n / 10) acc'
  end.

(** The decimal digits of an integer [0 <= n]. *)
Definition digitsOf (n : Z) : string :=
  digitsOfPos (S (Z.to_nat (Z.log2 n))) n EmptyString.

Fixpoint zeros (n : nat) : string :=
  match n with
  | O => EmptyString
  | S n' => String "0" (zeros n')
  end.

Fixpoint takeChars (n : nat) (s : string) : string :=
  match n, s with
  | S n', String c s' => String c (takeChars n' s')
  | _, _ => EmptyString
  end.

(** For [0 < num < den], the least [j >= 1] with [den <= num * 10^j]
    (counted from [j]). *)
Fixpoint scaleUp (fuel : nat) (num den j : Z) : Z :=
  match fuel with
  | O => j
  | S fuel' =>
      if den <=? num * 10 then j else scaleUp fuel' (num * 10) den (j + 1)
  end.

(** The integer [n] with [10^(n-1) <= num/den < 10^n], for [0 < num/den]. *)
Definition magnitude10 (num den : Z) : Z :=
  if den <=? num then Z.of_nat (String.length (digitsOf (num / den)))
  else 1 - scaleUp (Z.to_nat (Z.log2 den)) num den 1.

(** The digits of the shortest decimal that reads back as [x = num/den]:
    for [k = 1, 2, ...] the two [k]-digit decimals [lo * 10^(n-k)] and
    [(lo+1) * 10^(n-k)] around [x] are tried; of two that read back as
    [x] the one closer to [x] is taken, the even one on a tie.  The
    result is the digit value [s] and [k]. *)
Fixpoint shortestDigits (fuel : nat) (x : number) (num den n k : Z) : Z * Z :=
  let a := num * 10 ^ Z.max (k - n) 0 in
  let b := den * 10 ^ Z.max (n - k) 0 in
  let lo := a / b in
  let hi := lo + 1 in
  let okLo := (0 <? lo) && sameNumber (ofDecimal false lo (n - k)) x in
  let okHi := sameNumber (ofDecimal false hi (n - k)) x in
  let nearest :=
    match 2 * a ?= (2 * lo + 1) * b with
    | Lt => lo
    | Gt => hi
    | Eq => if Z.even lo then lo else hi
    end in
  match fuel with
  | O => (nearest, k)
  | S fuel' =>
      if okLo && okHi then (nearest, k)
      else if okLo then (lo, k)
      else if okHi then (hi, k)
      else shortestDigits fuel' x num den n (k + 1)
  end.

(** The text of a positive finite number [m * 2^e]. *)
Definition finiteToString (m : positive) (e : Z) : string :=
  let num := Zpos m * 2 ^ Z.max e 0 in
  let den := 2 ^ Z.max (- e) 0 in
  let n0 := magnitude10 num den in
  let '(s0, k) := shortestDigits 16 (S754_finite false m e) num den n0 1 in
  (* the one-digit decimal [10 * 10^(n0-1)] is [1 * 10^n0] *)
  let '(s, n) := if s0 =? 10 ^ k then (s0 / 10, n0 + 1) else (s0, n0) in
  let d := digitsOf s in
  if (k <=? n) && (n <=? 21) then d ++ zeros (Z.to_nat (n - k))
  else if (0 <? n) && (n <=? 21) then
    takeChars (Z.to_nat n) d ++ "." ++ dropChars (Z.to_nat n) d
  else if (-6 <? n) && (n <=? 0) then "0." ++ zeros (Z.to_nat (- n)) ++ d
  else
    let ex := (if n - 1 <? 0 then "-" else "+") ++ digitsOf (Z.abs (n - 1)) in
    if k =? 1 then d ++ "e" ++ ex
    else takeChars 1 d ++ "." ++ dropChars 1 d ++ "e" ++ ex.

(** [String(x)] for a number [x]. *)
Definition toString (x : number) : string :=
  match x with
  | S754_nan => "NaN"
  | S754_zero _ => "0"
  | S754_infinity neg => if neg then "-Infinity" else "Infinity"
  | S754_finite neg m e =>
      (if neg then "-" else "") ++ finiteToString m e
  end.

End JsNumber.

(** ** Values and plain objects *)

Module Js.
Import JsNumber.

Inductive JsValue : Set :=
| JUndefined
| JNull
| JBool (b : bool)
| JNumber (x : number)
| JString (s : string)
| JGeoPoint (latitude longitude : number)
    (** the plain object [{latitude, longitude}] of a location field *)
| JObjectPrototype
    (** [Object.prototype] itself, what [__proto__] reads *)
| JNativeFunction (name : string)
    (** a built-in function, such as [Object.prototype.toString] *).

(** A plain object as parsed from JSON: its own properties in order, each
    key once. *)
Definition JsObject : Set := list (string * JsValue).

Fixpoint getOwnProperty (o : JsObject) (key : string) : option JsValue :=
  match o with
  | [] => None
  | (k, v) :: o' => if String.eqb k key then Some v else getOwnProperty o' key
  end.

(** The members every plain object inherits from [Object.prototype]. *)
Definition objectPrototypeMethods : list string :=
  [ "hasOwnProperty"; "isPrototypeOf"; "propertyIsEnumerable";
    "toLocaleString"; "toString"; "valueOf";
    "__defineGetter__"; "__defineSetter__";
    "__lookupGetter__"; "__lookupSetter__" ].

Definition getInherited (key : string) : option JsValue :=
  if String.eqb key "constructor" then Some (JNativeFunction "Object")
  else if String.eqb key "__proto__" then Some JObjectPrototype
  else if existsb (String.eqb key) objectPrototypeMethods
       then Some (JNativeFunction key)
  else None.

(** [o[key]]: an own property first, then the prototype, else
    [undefined]. *)
Definition get (o : JsObject) (key : string) : JsValue :=
  match getOwnProperty o key with
  | Some v => v
  | None =>
      match getInherited key with
      | Some v => v
      | None => JUndefined
      end
  end.

(** [v == null] *)
Definition isNullish (v : JsValue) : bool :=
  match v with
  | JUndefined | JNull => true
  | _ => false
  end.

(** [String(v)] *)
Definition toString (v : JsValue) : string :=
  match v with
  | JUndefined => "undefined"
  | JNull => "null"
  | JBool true => "true"
  | JBool false => "false"
  | JNumber x => JsNumber.toString x
  | JString s => s
  | JGeoPoint _ _ => "[object Object]"
  | JObjectPrototype => "[object Object]"
  | JNativeFunction name => "function " ++ name ++ "() { [native code] }"
  end.

(** [Number(v)]; an object is first turned into a primitive, which for
    the objects here is its string. *)
Definition toNumber (v : JsValue) : number :=
  match v with
  | JUndefined => NaN
  | JNull => S754_zero false
  | JBool true => ofDecimal false 1 0
  | JBool false => S754_zero false
  | JNumber x => x
  | JString s => stringToNumber s
  | JGeoPoint _ _ | JObjectPrototype | JNativeFunction _ =>
      stringToNumber (toString v)
  end.

(** The global [isNaN(v)] *)
Definition isNaN (v : JsValue) : bool := JsNumber.isNaN (toNumber v).

(** The global [parseFloat(v)] *)
Definition parseFloat (v : JsValue) : number :=
  parseFloatString (toString v).

(** [a.every(f)], [a.some(f)] and [a.filter(f)] on a dense array; [every]
    and [some] stop at the first element that decides the answer. *)
Fixpoint every {A : Type} (f : A -> bool) (a : list A) : bool :=
  match a with
  | [] => true
  | x :: a' => if f x then every f a' else false
  end.

Fixpoint some {A : Type} (f : A -> bool) (a : list A) : bool :=
  match a with
  | [] => false
  | x :: a' => if f x then true else some f a'
  end.

Fixpoint filter {A : Type} (f : A -> bool) (a : list A) : list A :=
  match a with
  | [] => []
  | x :: a' => if f x then x :: filter f a' else filter f a'
  end.

End Js.

(** ** The Record component *)

Module RecordScreen.
Import JsString JsNumber Js.

(** A row of the [record] table as the API returns it. *)
Record JsRecord : Set := { id : Z; values : JsObject }.

(** One line of the filter builder. *)
Record Criterion : Set :=
  { field : string; operator : string; value : JsValue }.

(** The two pieces of component state the handlers below read and set. *)
Record State : Set :=
  { records : list JsRecord; originalRecords : list JsRecord }.

Definition initialState : State :=
  {| records := []; originalRecords := [] |}.

(** The test that opens the numeric branch:
    [!isNaN(val) && !isNaN(c.value)]. *)
Definition numericMode (val cvalue : JsValue) : bool :=
  negb (isNaN val) && negb (isNaN cvalue).

(** The [switch] of the numeric branch. *)
Definition numericSwitch (op : string) (numVal numInput : number) : bool :=
  if String.eqb op "equals" then JsNumber.eqb numVal numInput
  else if String.eqb op "greater" then JsNumber.ltb numInput numVal
  else if String.eqb op "less" then JsNumber.ltb numVal numInput
  else if String.eqb op "greaterOrEqual" then JsNumber.leb numInput numVal
  else if String.eqb op "lessOrEqual" then JsNumber.leb numVal numInput
  else false.

(** The [switch] of the string branch. *)
Definition stringSwitch (op : string) (strVal input : string) : bool :=
  if String.eqb op "equals" then String.eqb strVal input
  else if String.eqb op "contains" then includes strVal input
  else if String.eqb op "startswith" then startsWith strVal input
  else false.

(** The callback given to [every] or [some] in [applyFilter]: whether
    [record] satisfies the criterion [c]. *)
Definition evalCriterion (record : JsRecord) (c : Criterion) : bool :=
  let val := get (values record) (field c) in
  if isNullish val then false
  else
    let strVal := toLowerCase (toString val) in
    let input := toLowerCase (toString (value c)) in
    if numericMode val (value c) then
      let numVal := parseFloat val in
      let numInput := parseFloat (value c) in
      numericSwitch (operator c) numVal numInput
    else stringSwitch (operator c) strVal input.

(** [logic === 'AND'] *)
Definition isAND (logic : JsValue) : bool :=
  match logic with
  | JString s => String.eqb s "AND"
  | _ => false
  end.

(** The callback given to [originalRecords.filter]:
    [criteria[logic === 'AND' ? 'every' : 'some'](...)]. *)
Definition keepRecord (criteria : list Criterion) (logic : JsValue)
    (record : JsRecord) : bool :=
  if isAND logic then every (evalCriterion record) criteria
  else some (evalCriterion record) criteria.

(** [applyFilter(criteria, logic)]: the state after its [setRecords]. *)
Definition applyFilter (st : State) (criteria : list Criterion)
    (logic : JsValue) : State :=
  match criteria with
  | [] =>
      {| records := originalRecords st;
         originalRecords := originalRecords st |}
  | _ =>
      let filtered := filter (keepRecord criteria logic) (originalRecords st) in
      {| records := filtered; originalRecords := originalRecords st |}
  end.

(** What [apiRequest] gives [fetchRecords]: an array of rows, some other
    JSON value, or a rejected promise. *)
Inductive ApiResult : Set :=
| ApiArray (data : list JsRecord)
| ApiOther
| ApiFailure.

(** [fetchRecords(formId)] once the request has settled. *)
Definition fetchRecords (st : State) (res : ApiResult) : State :=
  match res with
  | ApiArray data => {| records := data; originalRecords := data |}
  | ApiOther => {| records := []; originalRecords := [] |}
  | ApiFailure => st
  end.

(** The [Delete] button of [handleDelete(recordId)], once [deleteRecord]
    has settled; [deleted] tells whether the request succeeded. *)
Definition handleDelete (st : State) (recordId : Z) (deleted : bool) : State :=
  if deleted then
    {| records := filter (fun r => negb (id r =? recordId)) (records st);
       originalRecords :=
         filter (fun r => negb (id r =? recordId)) (originalRecords st) |}
  else st.

(** What can happen to the two lists. *)
Inductive Event : Set :=
| Fetched (res : ApiResult)
| FilterApplied (criteria : list Criterion) (logic : JsValue)
| DeletePressed (recordId : Z) (deleted : bool).

Definition step (st : State) (ev : Event) : State :=
  match ev with
  | Fetched res => fetchRecords st res
  | FilterApplied criteria logic => applyFilter st criteria logic
  | DeletePressed recordId deleted => handleDelete st recordId deleted
  end.

(** The state after a sequence of events, oldest first. *)
Definition runFrom (st : State) (evs : list Event) : State :=
  fold_left step evs st.

Definition run (evs : list Event) : State := runFrom initialState evs.

(** Filter applications one after the other, oldest first. *)
Definition applyFilters (st : State)
    (fs : list (list Criterion * JsValue)) : State :=
  fold_left (fun s f => applyFilter s (fst f) (snd f)) fs st.

End RecordScreen.

(** ** Notions the statements below are phrased with *)

Module Reading.
Import JsString JsNumber Js.

(** [Subsequence l1 l2]: [l1] is [l2] with some elements left out, the
    others in their order. *)
Inductive Subsequence {A : Type} : list A -> list A -> Prop :=
| Subsequence_nil : Subsequence [] []
| Subsequence_skip x l1 l2 : Subsequence l1 l2 -> Subsequence l1 (x :: l2)
| Subsequence_keep x l1 l2 : Subsequence l1 l2 -> Subsequence (x :: l1) (x :: l2).

(** The specification's test for the numeric branch, in its words: the
    value "parses as a valid number" under the parsing of decimal
    floating-point strings, that is, its text is as a whole (white space
    around it aside) a decimal literal. *)
Definition spec_parsesAsNumber (v : JsValue) : bool :=
  match readDecimal (trim (toString v)) with
  | Some (_, EmptyString) => true
  | _ => false
  end.

(** Nothing but white space. *)
Fixpoint allWhiteSpace (w : string) : bool :=
  match w with
  | EmptyString => true
  | String c w' => isWhiteSpace c && allWhiteSpace w'
  end.

(** What the combinator asks of a record: under [AND] every criterion
    holds of it, under [OR] at least one does. *)
Definition satisfiesAll (criteria : list RecordScreen.Criterion)
    (r : RecordScreen.JsRecord) : Prop :=
  forall c, In c criteria -> RecordScreen.evalCriterion r c = true.

Definition satisfiesSome (criteria : list RecordScreen.Criterion)
    (r : RecordScreen.JsRecord) : Prop :=
  exists c, In c criteria /\ RecordScreen.evalCriterion r c = true.

End Reading.

(** ** The scenarios of the specification *)

Module Scenarios.
Import Js RecordScreen.

Definition brisbane : JsRecord :=
  {| id := 1;
     values := [("city", JString "Brisbane"); ("price", JString "100")] |}.

Definition sydney : JsRecord :=
  {| id := 2;
     values := [("city", JString "Sydney"); ("price", JString "50")] |}.

Definition loaded : State :=
  fetchRecords initialState (ApiArray [brisbane; sydney]).

Definition priceAtMost75 : Criterion :=
  {| field := "price"; operator := "lessOrEqual"; value := JString "75" |}.

Definition cityStartsWithB : Criterion :=
  {| field := "city"; operator := "startswith"; value := JString "B" |}.

Definition priceAbove200 : Criterion :=
  {| field := "price"; operator := "greater"; value := JString "200" |}.

Definition cityIsSydney : Criterion :=
  {| field := "city"; operator := "equals"; value := JString "sydney" |}.

(** [{values: {x: "10"}}] against [x greater "5"]. *)
Definition ten : JsRecord := {| id := 3; values := [("x", JString "10")] |}.

Definition xAbove5 : Criterion :=
  {| field := "x"; operator := "greater"; value := JString "5" |}.

(** [{values: {x: "apple"}}] against [x contains "app"]. *)
Definition apple : JsRecord := {| id := 4; values := [("x", JString "apple")] |}.

Definition xContainsApp : Criterion :=
  {| field := "x"; operator := "contains"; value := JString "app" |}.

(** A record whose field [x] was left empty, against [x equals ""]. *)
Definition blank : JsRecord := {| id := 5; values := [("x", JString "")] |}.

Definition xIsBlank : Criterion :=
  {| field := "x"; operator := "equals"; value := JString "" |}.

(** Two records of a form with one text field called [constructor]: the
    first has it filled in, the second was saved with no field filled
    in. *)
Definition builder : JsRecord :=
  {| id := 7; values := [("constructor", JString "Acme Builders")] |}.

Definition bare : JsRecord := {| id := 6; values := [] |}.

Definition constructorStartsWithFunction : Criterion :=
  {| field := "constructor"; operator := "startswith";
     value := JString "function" |}.

Definition ageIs5 : Criterion :=
  {| field := "age"; operator := "equals"; value := JString "5" |}.

End Scenarios.

(** ** Own properties of a plain object *)

Module JsKeys.
Import JsString JsNumber Js.

(** An array index: the canonical text of an integer from 0 to 2^32 - 2
    (digits only, no leading zero other than ["0"] itself). *)
Definition arrayIndex (key : string) : option Z :=
  match key with
  | EmptyString => None
  | String c rest =>
      let '(v, _, r) := readDigits key 0 0 in
      match r with
      | EmptyString =>
          if Ascii.eqb c "0" && negb (String.eqb rest "") then None
          else if v <=? 4294967294 then Some v else None
      | String _ _ => None
      end
  end.

Definition isArrayIndex (key : string) : bool :=
  match arrayIndex key with Some _ => true | None => false end.

Definition indexOf (key : string) : Z :=
  match arrayIndex key with Some i => i | None => -1 end.

(** Insertion by ascending array index, before the entries of the same
    index. *)
Fixpoint insertByIndex {V : Type} (e : string * V) (l : list (string * V))
    : list (string * V) :=
  match l with
  | [] => [e]
  | e' :: l' =>
      if indexOf (fst e) <=? indexOf (fst e') then e :: l
      else e' :: insertByIndex e l'
  end.

Fixpoint sortByIndex {V : Type} (l : list (string * V)) : list (string * V) :=
  match l with
  | [] => []
  | e :: l' => insertByIndex e (sortByIndex l')
  end.

(** [Object.entries(o)]: the properties whose key is an array index, in
    ascending order of the index, then the others in the order they were
    created. *)
Definition ownEntries {V : Type} (o : list (string * V)) : list (string * V) :=
  sortByIndex (List.filter (fun e => isArrayIndex (fst e)) o)
  ++ List.filter (fun e => negb (isArrayIndex (fst e))) o.

(** [Object.keys(o)] *)
Definition ownKeys {V : Type} (o : list (string * V)) : list string :=
  map fst (ownEntries o).

(** An own property of an object whose values are of any kind. *)
Fixpoint lookupOwn {V : Type} (o : list (string * V)) (key : string) : option V :=
  match o with
  | [] => None
  | (k, v) :: o' => if String.eqb k key then Some v else lookupOwn o' key
  end.

(** [{...o}]: a new object with the own properties of [o], created in the
    order [Object.entries] lists them. *)
Definition spread {V : Type} (o : list (string * V)) : list (string * V) :=
  ownEntries o.

(** Defining the property [key] with value [v] on an object under
    construction: an existing property keeps its place and takes the new
    value, a new one is created last. *)
Fixpoint setProperty {V : Type} (o : list (string * V)) (key : string) (v : V)
    : list (string * V) :=
  match o with
  | [] => [(key, v)]
  | (k, v') :: o' =>
      if String.eqb k key then (key, v) :: o'
      else (k, v') :: setProperty o' key v
  end.

End JsKeys.

(** ** What the Record screen hands to the filter builder and shows *)

Module RecordView.
Import JsString JsNumber Js JsKeys RecordScreen.

(** One entry of the [fields] prop of [FilterBuilder]. *)
Record FieldOption : Set := { name : string; type : string }.

(** The [fields] prop: the keys of the first displayed record, each typed
    [number] or [text] by [isNaN] of its value in that record; nothing when
    no record is displayed. *)
Definition filterFields (st : State) : list FieldOption :=
  match records st with
  | [] => []
  | first :: _ =>
      map (fun k =>
             {| name := k;
                type := if isNaN (get (values first) k) then "text" else "number" |})
          (ownKeys (values first))
  end.

(** [records.length > 0], the condition of the filter button. *)
Definition filterButtonShown (st : State) : bool :=
  match records st with
  | [] => false
  | _ :: _ => true
  end.

(** Whether a number is truthy: neither a zero nor NaN. *)
Definition numberTruthy (x : number) : bool :=
  match x with
  | S754_zero _ | S754_nan => false
  | _ => true
  end.

(** How one value of a record card is shown. *)
Inductive ValueView : Set :=
| ImagePreview (uri : string)
    (** an [Image] with the value as its source *)
| Coordinates (latitude longitude : number)
    (** the line with [latitude.toFixed(4)] and [longitude.toFixed(4)] *)
| JsonText (v : JsValue)
    (** [JSON.stringify(value, null, 2)] *)
| PlainText (text : string)
    (** [String(value)] *).

(** The choice made for each [[key, value]] of a record card, by
    [typeof value], [value.startsWith('file:///')] and the truthiness of
    [value?.latitude]. *)
Definition valueView (v : JsValue) : ValueView :=
  match v with
  | JString s =>
      if startsWith s "file:///" then ImagePreview s else PlainText (toString v)
  | JGeoPoint latitude longitude =>
      if numberTruthy latitude then Coordinates latitude longitude
      else JsonText v
  | JNull | JObjectPrototype => JsonText v
  | JUndefined | JBool _ | JNumber _ | JNativeFunction _ => PlainText (toString v)
  end.

(** The rows of a record card: one per own property of [record.values],
    in the order of [Object.entries]. *)
Definition recordCard (record : JsRecord) : list (string * ValueView) :=
  map (fun e => (fst e, valueView (snd e))) (ownEntries (values record)).

End RecordView.

(** ** Adding a record (the form modal) *)

Module RecordForm.
Import JsString JsNumber Js JsKeys.

(** A row of the [field] table, as far as the form reads it. *)
Record FormField : Set :=
  { name : string; required : bool; is_num : bool }.

(** A value sent in a request body: a primitive, or a plain object. *)
Inductive BodyValue : Set :=
| BodyPrimitive (v : JsValue)
| BodyObject (o : JsObject).

Definition Body : Set := list (string * BodyValue).

(** [handleChange(key, value)]: the next [formValues],
    [{ ...prev, [key]: value }]. *)
Definition handleChange (prev : JsObject) (key : string) (value : JsValue)
    : JsObject :=
  setProperty (spread prev) key value.

(** [value === undefined || value === ''] *)
Definition isMissing (value : JsValue) : bool :=
  match value with
  | JUndefined => true
  | JString s => String.eqb s ""
  | _ => false
  end.

(** The body of the loop of [handleAddRecord] for one field: the message
    of the alert it raises, if any. *)
Definition checkField (formValues : JsObject) (f : FormField) : option string :=
  let value := get formValues (name f) in
  if required f && isMissing value then Some (name f ++ " is required.")
  else if is_num f && isNaN value then Some (name f ++ " must be numeric.")
  else None.

(** The loop of [handleAddRecord]: it returns at the first field that
    raises an alert. *)
Fixpoint validate (formValues : JsObject) (fields : list FormField)
    : option string :=
  match fields with
  | [] => None
  | f :: rest =>
      match checkField formValues f with
      | Some message => Some message
      | None => validate formValues rest
      end
  end.

(** What [handleAddRecord] does: a validation alert, or the call
    [insertRecord(id, newRecord)]. *)
Inductive AddRecord : Set :=
| ValidationError (message : string)
| InsertRecord (formId : JsValue) (newRecord : Body).

Definition handleAddRecord (id : JsValue) (fields : list FormField)
    (formValues : JsObject) : AddRecord :=
  match validate formValues fields with
  | Some message => ValidationError message
  | None =>
      InsertRecord id
        [("form_id", BodyPrimitive id); ("values", BodyObject formValues)]
  end.

End RecordForm.

(** ** The requests of [app.js] *)

Module Api.
Import JsString JsNumber Js JsKeys RecordForm.

(** The second argument of [fetch]; [body] is the object given to
    [JSON.stringify]. *)
Record RequestOptions : Set :=
  { method : string;
    headers : list (string * string);
    body : option Body }.

Record Request : Set := { url : string; options : RequestOptions }.

Section Constants.
(** The three constants at the head of [app.js]. *)
Variables API_BASE_URL JWT_TOKEN USERNAME : string.

(** [apiRequest(endpoint, method, body)] up to its call of [fetch]. *)
Definition apiRequest (endpoint method : string) (body : option Body) : Request :=
  let headers :=
    [("Content-Type", "application/json");
     ("Authorization", "Bearer " ++ JWT_TOKEN)] in
  let headers :=
    if String.eqb method "POST" || String.eqb method "PATCH"
    then setProperty headers "Prefer" "return=representation"
    else headers in
  {| url := API_BASE_URL ++ endpoint;
     options :=
       {| method := method;
          headers := headers;
          body :=
            match body with
            | Some b =>
                Some (setProperty (spread b) "username"
                        (BodyPrimitive (JString USERNAME)))
            | None => None
            end |} |}.

(** [insertRecord(formId, record)] *)
Definition insertRecord (formId : JsValue) (record : Body) : Request :=
  apiRequest "/record" "POST"
    (Some (setProperty (spread record) "form_id" (BodyPrimitive formId))).

(** [deleteRecord(recordId)] *)
Definition deleteRecord (recordId : JsValue) : Request :=
  apiRequest ("/record?id=eq." ++ toString recordId) "DELETE" None.

End Constants.

End Api.

(** ** Notions for sequences of events and for operators *)

Module Reading2.
Import Js RecordScreen.

(** No fetch that sets the two lists: neither an array nor another JSON
    value came back. *)
Definition noRefetch (evs : list Event) : bool :=
  forallb (fun ev =>
             match ev with
             | Fetched (ApiArray _) | Fetched ApiOther => false
             | _ => true
             end) evs.

(** The criterion [c] with another operator. *)
Definition withOperator (c : Criterion) (op : string) : Criterion :=
  {| field := field c; operator := op; value := value c |}.

End Reading2.

(** * Properties *)

(** ** The array methods *)

Section ArrayFacts.
Import Js Reading.
Context {A : Type}.
Variable f : A -> bool.

Lemma every_spec (a : list A) :
  every f a = true <-> (forall x, In x a -> f x = true).
Proof.
  induction a as [|x a IH]; simpl.
  - split; [intros _ y []|reflexivity].
  - destruct (f x) eqn:Hx.
    + rewrite IH. split.
      * intros H y [<-|Hy]; auto.
      * intros H y Hy. apply H. now right.
    + split; [discriminate|].
      intros H. rewrite <- Hx. apply H. now left.
Qed.

Lemma some_spec (a : list A) :
  some f a = true <-> (exists x, In x a /\ f x = true).
Proof.
  induction a as [|x a IH]; simpl.
  - split; [discriminate|intros (y & [] & _)].
  - destruct (f x) eqn:Hx.
    + split; [intros _; exists x; auto|reflexivity].
    + rewrite IH. split.
      * intros (y & Hy & Hfy). exists y. auto.
      * intros (y & [<-|Hy] & Hfy); [congruence|exists y; auto].
Qed.

Lemma filter_is_List_filter (a : list A) : filter f a = List.filter f a.
Proof. induction a as [|x a IH]; simpl; [|rewrite IH]; reflexivity. Qed.

Lemma filter_In (a : list A) (x : A) :
  In x (filter f a) <-> In x a /\ f x = true.
Proof. rewrite filter_is_List_filter. apply List.filter_In. Qed.

Lemma filter_Subsequence (a : list A) : Subsequence (filter f a) a.
Proof.
  induction a as [|x a IH]; simpl; [constructor|].
  destruct (f x); constructor; assumption.
Qed.

Lemma Subsequence_filter (a b : list A) :
  Subsequence a b -> Subsequence (filter f a) (filter f b).
Proof.
  induction 1 as [|x a b _ IH|x a b _ IH]; simpl.
  - constructor.
  - destruct (f x); [constructor|]; assumption.
  - destruct (f x); [constructor|]; assumption.
Qed.

End ArrayFacts.

Lemma Subsequence_refl {A : Type} (a : list A) : Reading.Subsequence a a.
Proof. induction a; constructor; assumption. Qed.

Lemma Subsequence_In {A : Type} (a b : list A) (x : A) :
  Reading.Subsequence a b -> In x a -> In x b.
Proof.
  induction 1 as [|y a b _ IH|y a b _ IH]; simpl; intuition.
Qed.

Lemma filter_ext_in {A : Type} (f g : A -> bool) (a : list A) :
  (forall x, In x a -> f x = g x) -> Js.filter f a = Js.filter g a.
Proof.
  induction a as [|x a IH]; simpl; intros H; [reflexivity|].
  rewrite (H x (or_introl eq_refl)), IH; [reflexivity|].
  intros y Hy. apply H. now right.
Qed.

(** ** The combinator of [applyFilter] *)

Section Combinator.
Import Js RecordScreen Reading.

Lemma isAND_true (logic : JsValue) :
  isAND logic = true <-> logic = JString "AND".
Proof.
  destruct logic; simpl; try (split; [discriminate|congruence]).
  rewrite String.eqb_eq. split; congruence.
Qed.

Lemma isAND_false (logic : JsValue) :
  isAND logic = false <-> logic <> JString "AND".
Proof.
  rewrite <- isAND_true. destruct (isAND logic); split; congruence.
Qed.

Lemma keepRecord_AND (criteria : list Criterion) (r : JsRecord) :
  keepRecord criteria (JString "AND") r = true <-> satisfiesAll criteria r.
Proof. unfold keepRecord. simpl. apply every_spec. Qed.

Lemma keepRecord_not_AND (criteria : list Criterion) (logic : JsValue)
    (r : JsRecord) :
  logic <> JString "AND" ->
  (keepRecord criteria logic r = true <-> satisfiesSome criteria r).
Proof.
  intros H. apply isAND_false in H. unfold keepRecord. rewrite H.
  apply some_spec.
Qed.

Lemma applyFilter_nonempty (st : State) (criteria : list Criterion)
    (logic : JsValue) :
  criteria <> [] ->
  records (applyFilter st criteria logic)
  = filter (keepRecord criteria logic) (originalRecords st).
Proof. destruct criteria; [congruence|reflexivity]. Qed.

Lemma applyFilter_originalRecords (st : State) (criteria : list Criterion)
    (logic : JsValue) :
  originalRecords (applyFilter st criteria logic) = originalRecords st.
Proof. destruct criteria; reflexivity. Qed.

Lemma applyFilter_Subsequence (st : State) (criteria : list Criterion)
    (logic : JsValue) :
  Subsequence (records (applyFilter st criteria logic)) (originalRecords st).
Proof.
  destruct criteria; simpl.
  - apply Subsequence_refl.
  - apply filter_Subsequence.
Qed.

End Combinator.

Section FilterClaims.
Import Js RecordScreen Reading.

(** C1. For a non-empty criteria list and logic ["AND"] or ["OR"], the
    list [applyFilter] stores is the snapshot with some records left out
    and the others in their order; it is the snapshot filtered by a test
    that holds of a record exactly when, under ["AND"], every criterion
    evaluates true on it and, under ["OR"], at least one does; so a record
    is in the result exactly when it is in the snapshot and passes. *)
Theorem applyFilter_keeps_matching_records_in_order
    (st : State) (criteria : list Criterion) (logic : JsValue) :
  criteria <> [] ->
  logic = JString "AND" \/ logic = JString "OR" ->
  Subsequence (records (applyFilter st criteria logic)) (originalRecords st)
  /\ records (applyFilter st criteria logic)
     = List.filter (keepRecord criteria logic) (originalRecords st)
  /\ (forall r,
        keepRecord criteria logic r = true <->
        (logic = JString "AND" /\ satisfiesAll criteria r) \/
        (logic = JString "OR" /\ satisfiesSome criteria r))
  /\ (forall r,
        In r (records (applyFilter st criteria logic)) <->
        In r (originalRecords st) /\
        ((logic = JString "AND" /\ satisfiesAll criteria r) \/
         (logic = JString "OR" /\ satisfiesSome criteria r))).
Proof.
  intros Hne Hlogic.
  assert (Hkeep : forall r,
        keepRecord criteria logic r = true <->
        (logic = JString "AND" /\ satisfiesAll criteria r) \/
        (logic = JString "OR" /\ satisfiesSome criteria r)).
  { intros r. destruct Hlogic as [-> | ->].
    - rewrite keepRecord_AND. split.
      + intros H. left. split; [reflexivity|exact H].
      + intros [[_ H]|[H _]]; [exact H|discriminate H].
    - rewrite keepRecord_not_AND by discriminate. split.
      + intros H. right. split; [reflexivity|exact H].
      + intros [[H _]|[_ H]]; [discriminate H|exact H]. }
  split; [apply applyFilter_Subsequence|].
  split; [rewrite applyFilter_nonempty by assumption;
          apply filter_is_List_filter|].
  split; [exact Hkeep|].
  intros r. rewrite applyFilter_nonempty by assumption.
  rewrite filter_In, Hkeep. reflexivity.
Qed.

(** C5. With an empty criteria list, whatever the logic, [applyFilter]
    stores the snapshot itself: the same records in the same order, and
    the snapshot is left as it was. *)
Theorem applyFilter_empty_criteria_is_identity
    (st : State) (logic : JsValue) :
  records (applyFilter st [] logic) = originalRecords st
  /\ originalRecords (applyFilter st [] logic) = originalRecords st.
Proof. split; reflexivity. Qed.

(** C7. With a single criterion the logic does not matter: the result
    under ["OR"] is the result under ["AND"], and so it is for any two
    logic values. *)
Theorem applyFilter_single_criterion_ignores_logic
    (st : State) (c : Criterion) :
  applyFilter st [c] (JString "OR") = applyFilter st [c] (JString "AND")
  /\ forall logic1 logic2 : JsValue,
       records (applyFilter st [c] logic1) = records (applyFilter st [c] logic2).
Proof.
  assert (H : forall logic r, keepRecord [c] logic r = evalCriterion r c).
  { intros logic r. unfold keepRecord.
    destruct (isAND logic); simpl; destruct (evalCriterion r c); reflexivity. }
  assert (G : forall logic1 logic2 : JsValue,
       records (applyFilter st [c] logic1) = records (applyFilter st [c] logic2)).
  { intros logic1 logic2. simpl.
    apply filter_ext_in. intros r _. now rewrite !H. }
  split; [|exact G].
  pose proof (G (JString "OR") (JString "AND")) as E. simpl in E.
  unfold applyFilter. now rewrite E.
Qed.

(** C8. Under ["AND"], what two criteria keep is kept by each of them
    alone: the result for [[c1; c2]] is included in the result for [[c1]]
    and in the result for [[c2]], and is a subsequence of both. *)
Theorem applyFilter_AND_two_criteria_subset
    (st : State) (c1 c2 : Criterion) :
  let both := records (applyFilter st [c1; c2] (JString "AND")) in
  (incl both (records (applyFilter st [c1] (JString "AND")))
   /\ incl both (records (applyFilter st [c2] (JString "AND"))))
  /\ (Subsequence both (records (applyFilter st [c1] (JString "AND")))
      /\ Subsequence both (records (applyFilter st [c2] (JString "AND")))).
Proof.
  cbv zeta.
  assert (E : forall c,
    (forall r, keepRecord [c1; c2] (JString "AND") r = true ->
               keepRecord [c] (JString "AND") r = true) ->
    filter (keepRecord [c1; c2] (JString "AND")) (originalRecords st)
    = filter (keepRecord [c1; c2] (JString "AND"))
        (filter (keepRecord [c] (JString "AND")) (originalRecords st))).
  { intros c Hc. induction (originalRecords st) as [|r l IH]; simpl; [reflexivity|].
    destruct (keepRecord [c1; c2] (JString "AND") r) eqn:K.
    - rewrite (Hc r K). simpl. rewrite K, IH. reflexivity.
    - destruct (keepRecord [c] (JString "AND") r); simpl; [rewrite K|]; exact IH. }
  assert (H1 : forall r, keepRecord [c1; c2] (JString "AND") r = true ->
               keepRecord [c1] (JString "AND") r = true).
  { intros r. rewrite !keepRecord_AND. intros H c [<-|[]]. apply H. now left. }
  assert (H2 : forall r, keepRecord [c1; c2] (JString "AND") r = true ->
               keepRecord [c2] (JString "AND") r = true).
  { intros r. rewrite !keepRecord_AND. intros H c [<-|[]]. apply H. right. now left. }
  assert (S1 : Subsequence (records (applyFilter st [c1; c2] (JString "AND")))
                 (records (applyFilter st [c1] (JString "AND")))).
  { simpl. rewrite (E c1 H1). apply filter_Subsequence. }
  assert (S2 : Subsequence (records (applyFilter st [c1; c2] (JString "AND")))
                 (records (applyFilter st [c2] (JString "AND")))).
  { simpl. rewrite (E c2 H2). apply filter_Subsequence. }
  split; split; try assumption; intros r Hr.
  - exact (Subsequence_In _ _ r S1 Hr).
  - exact (Subsequence_In _ _ r S2 Hr).
Qed.

(** C10. For a non-empty criteria list and a logic argument that is not
    the string ["AND"] (["OR"], [undefined], anything else), a record is
    kept exactly when at least one criterion is satisfied, and the result
    is the one for ["OR"]. *)
Theorem applyFilter_any_other_logic_is_OR
    (st : State) (criteria : list Criterion) (logic : JsValue) :
  criteria <> [] ->
  logic <> JString "AND" ->
  (forall r, keepRecord criteria logic r = true <-> satisfiesSome criteria r)
  /\ (forall r,
        In r (records (applyFilter st criteria logic)) <->
        In r (originalRecords st) /\ satisfiesSome criteria r)
  /\ applyFilter st criteria logic = applyFilter st criteria (JString "OR").
Proof.
  intros Hne Hlogic.
  split; [intros r; now apply keepRecord_not_AND|].
  split.
  - intros r. rewrite applyFilter_nonempty by assumption.
    rewrite filter_In, keepRecord_not_AND by assumption. reflexivity.
  - destruct criteria as [|c cs]; [congruence|].
    unfold applyFilter. f_equal. apply filter_ext_in. intros r _.
    unfold keepRecord. apply isAND_false in Hlogic. now rewrite Hlogic.
Qed.

End FilterClaims.

(** ** The two lists of the component *)

Section Snapshot.
Import Js RecordScreen Reading.

Lemma applyFilter_depends_on_snapshot (st st' : State)
    (criteria : list Criterion) (logic : JsValue) :
  originalRecords st' = originalRecords st ->
  applyFilter st' criteria logic = applyFilter st criteria logic.
Proof. intros H. unfold applyFilter. rewrite H. reflexivity. Qed.

Lemma applyFilters_originalRecords (fs : list (list Criterion * JsValue))
    (st : State) :
  originalRecords (applyFilters st fs) = originalRecords st.
Proof.
  revert st. induction fs as [|[c l] fs IH]; intros st.
  - reflexivity.
  - change (applyFilters st ((c, l) :: fs))
      with (applyFilters (applyFilter st c l) fs).
    rewrite IH. apply applyFilter_originalRecords.
Qed.

(** C6. [applyFilter] reads the snapshot [originalRecords] and never the
    list a previous application stored: it leaves the snapshot as it was,
    and its outcome is the same in any two states with the same snapshot.
    So the second of two successive applications gives what it would have
    given alone, and after a fetch and any number of applications the
    snapshot is still the fetched list and the next application filters
    that list. *)
Theorem applyFilter_never_stacks
    (st : State) (criteria1 criteria2 : list Criterion)
    (logic1 logic2 : JsValue) :
  originalRecords (applyFilter st criteria1 logic1) = originalRecords st
  /\ (forall st' : State,
        originalRecords st' = originalRecords st ->
        applyFilter st' criteria2 logic2 = applyFilter st criteria2 logic2)
  /\ applyFilter (applyFilter st criteria1 logic1) criteria2 logic2
     = applyFilter st criteria2 logic2
  /\ (forall (data : list JsRecord) (fs : list (list Criterion * JsValue)),
        let fetched := fetchRecords st (ApiArray data) in
        originalRecords (applyFilters fetched fs) = data
        /\ applyFilter (applyFilters fetched fs) criteria2 logic2
           = applyFilter fetched criteria2 logic2).
Proof.
  split; [apply applyFilter_originalRecords|].
  split; [intros st'; apply applyFilter_depends_on_snapshot|].
  split.
  - apply applyFilter_depends_on_snapshot, applyFilter_originalRecords.
  - intros data fs fetched.
    split; [apply (applyFilters_originalRecords fs fetched)|].
    apply applyFilter_depends_on_snapshot, applyFilters_originalRecords.
Qed.

Lemma step_keeps_Subsequence (st : State) (ev : Event) :
  Subsequence (records st) (originalRecords st) ->
  Subsequence (records (step st ev)) (originalRecords (step st ev)).
Proof.
  intros Inv. destruct ev as [[data| |]|criteria logic|recordId [|]]; simpl.
  - apply Subsequence_refl.
  - constructor.
  - exact Inv.
  - rewrite applyFilter_originalRecords. apply applyFilter_Subsequence.
  - apply Subsequence_filter, Inv.
  - exact Inv.
Qed.

Lemma runFrom_keeps_Subsequence (evs : list Event) (st : State) :
  Subsequence (records st) (originalRecords st) ->
  Subsequence (records (runFrom st evs)) (originalRecords (runFrom st evs)).
Proof.
  revert st. induction evs as [|ev evs IH]; intros st Inv; simpl.
  - exact Inv.
  - apply IH, step_keeps_Subsequence, Inv.
Qed.

(** C9. After any sequence of record fetches, filter applications and
    record deletions, the displayed [records] are [originalRecords] with
    some records left out and the others in their order: a fetch sets both
    lists to the same list, [applyFilter] stores a subsequence of the
    snapshot, and a deletion removes the same id from both lists. *)
Theorem records_always_Subsequence_of_originalRecords (evs : list Event) :
  Subsequence (records (run evs)) (originalRecords (run evs))
  /\ (forall data,
        records (fetchRecords (run evs) (ApiArray data)) = data
        /\ originalRecords (fetchRecords (run evs) (ApiArray data)) = data)
  /\ (forall criteria logic,
        Subsequence (records (applyFilter (run evs) criteria logic))
                    (originalRecords (run evs)))
  /\ (forall recordId,
        records (handleDelete (run evs) recordId true)
        = List.filter (fun r => negb (id r =? recordId)) (records (run evs))
        /\ originalRecords (handleDelete (run evs) recordId true)
           = List.filter (fun r => negb (id r =? recordId))
               (originalRecords (run evs))).
Proof.
  split.
  - apply runFrom_keeps_Subsequence. constructor.
  - split; [intros data; split; reflexivity|].
    split; [intros; apply applyFilter_Subsequence|].
    intros recordId. simpl. rewrite !filter_is_List_filter. split; reflexivity.
Qed.

End Snapshot.

(** ** The string methods *)

Section StringFacts.
Import JsString.

Lemma startsWith_spec (t s : string) :
  startsWith s t = true <-> exists post, s = (t ++ post)%string.
Proof.
  revert s. induction t as [|b t IH]; intros s; simpl.
  - split; [intros _; now exists s|reflexivity].
  - destruct s as [|a s].
    + split; [discriminate|intros (post & H); discriminate H].
    + rewrite andb_true_iff, Ascii.eqb_eq, IH. split.
      * intros (-> & post & ->). now exists post.
      * intros (post & H). injection H as -> ->. split; [reflexivity|now exists post].
Qed.

Lemma includes_spec (t s : string) :
  includes s t = true <-> exists pre post, s = (pre ++ t ++ post)%string.
Proof.
  induction s as [|a s IH].
  - cbn [includes]. rewrite orb_false_r, startsWith_spec. split.
    + intros (post & H). now exists EmptyString, post.
    + intros ([|c pre] & post & H); [now exists post|discriminate H].
  - cbn [includes]. rewrite orb_true_iff, startsWith_spec, IH. split.
    + intros [(post & H)|(pre & post & H)].
      * now exists EmptyString, post.
      * exists (String a pre), post. simpl. now rewrite H.
    + intros ([|c pre] & post & H).
      * left. now exists post.
      * right. simpl in H. injection H as -> ->. now exists pre, post.
Qed.

End StringFacts.

(** ** One criterion on one record *)

Section CriterionClaims.
Import JsString JsNumber Js RecordScreen Reading Scenarios.

Lemma evalCriterion_nullish (record : JsRecord) (c : Criterion) :
  isNullish (get (values record) (field c)) = true ->
  evalCriterion record c = false.
Proof. intros H. unfold evalCriterion. now rewrite H. Qed.

(** A field that is neither an own property nor a member of
    [Object.prototype], or whose value is [null], never satisfies a
    criterion. *)
Lemma evalCriterion_absent_or_null (record : JsRecord) (c : Criterion) :
  (getOwnProperty (values record) (field c) = None
   /\ getInherited (field c) = None)
  \/ getOwnProperty (values record) (field c) = Some JNull ->
  evalCriterion record c = false.
Proof.
  intros H. apply evalCriterion_nullish. unfold get.
  destruct H as [[-> ->]| ->]; reflexivity.
Qed.

Lemma evalCriterion_string_mode (record : JsRecord) (c : Criterion) :
  isNullish (get (values record) (field c)) = false ->
  numericMode (get (values record) (field c)) (value c) = false ->
  evalCriterion record c
  = stringSwitch (operator c)
      (toLowerCase (toString (get (values record) (field c))))
      (toLowerCase (toString (value c))).
Proof. intros H1 H2. unfold evalCriterion. now rewrite H1, H2. Qed.

Lemma evalCriterion_numeric_mode (record : JsRecord) (c : Criterion) :
  isNullish (get (values record) (field c)) = false ->
  numericMode (get (values record) (field c)) (value c) = true ->
  evalCriterion record c
  = numericSwitch (operator c)
      (parseFloat (get (values record) (field c)))
      (parseFloat (value c)).
Proof. intros H1 H2. unfold evalCriterion. now rewrite H1, H2. Qed.

(** C3 (the code departs from it). In a form with a field called
    [constructor], a record saved without that field is looked up through
    the prototype of its [values] object: the lookup yields the function
    [Object], which is not [null], and the criterion
    [startswith "function"] is satisfied.  [applyFilter] keeps the record
    that lacks the field and drops the one that has it. *)
Theorem missing_field_named_constructor_matches :
  getOwnProperty (values bare) (field constructorStartsWithFunction) = None
  /\ get (values bare) (field constructorStartsWithFunction)
     = JNativeFunction "Object"
  /\ evalCriterion bare constructorStartsWithFunction = true
  /\ records (applyFilter (fetchRecords initialState (ApiArray [builder; bare]))
                [constructorStartsWithFunction] (JString "AND"))
     = [bare].
Proof. repeat split. Qed.

(** C4. When the value of the field is not [null] or [undefined] and the
    numeric branch is not taken, the criterion is decided on the
    lower-cased texts of the two values: [equals] holds exactly when the
    two texts are the same, [contains] exactly when the criterion's text
    occurs inside the field's text, [startswith] exactly when the field's
    text begins with it, and any other operator is not satisfied. *)
Theorem string_mode_compares_lowercased_texts
    (record : JsRecord) (c : Criterion) :
  isNullish (get (values record) (field c)) = false ->
  numericMode (get (values record) (field c)) (value c) = false ->
  (operator c = "equals" ->
     (evalCriterion record c = true <->
      toLowerCase (toString (get (values record) (field c)))
      = toLowerCase (toString (value c))))
  /\ (operator c = "contains" ->
        (evalCriterion record c = true <->
         exists pre post,
           toLowerCase (toString (get (values record) (field c)))
           = (pre ++ toLowerCase (toString (value c)) ++ post)%string))
  /\ (operator c = "startswith" ->
        (evalCriterion record c = true <->
         exists post,
           toLowerCase (toString (get (values record) (field c)))
           = (toLowerCase (toString (value c)) ++ post)%string))
  /\ (operator c <> "equals" -> operator c <> "contains" ->
      operator c <> "startswith" ->
      evalCriterion record c = false).
Proof.
  intros Hval Hmode.
  rewrite (evalCriterion_string_mode record c Hval Hmode).
  unfold stringSwitch. repeat split.
  - rewrite H. simpl. now intros ?%String.eqb_eq.
  - rewrite H. simpl. now intros ?%String.eqb_eq.
  - rewrite H. simpl. now intros ?%includes_spec.
  - rewrite H. simpl. now intros ?%includes_spec.
  - rewrite H. simpl. now intros ?%startsWith_spec.
  - rewrite H. simpl. now intros ?%startsWith_spec.
  - intros H1 H2 H3.
    apply String.eqb_neq in H1, H2, H3. now rewrite H1, H2, H3.
Qed.

(** The record with city ["Sydney"] satisfies [equals "sydney"]. *)
Lemma string_mode_Sydney_equals_sydney :
  evalCriterion sydney cityIsSydney = true.
Proof.
  destruct (string_mode_compares_lowercased_texts sydney cityIsSydney)
    as [Hequals _]; [reflexivity|reflexivity|].
  apply Hequals; reflexivity.
Defined.

End CriterionClaims.

(** ** Reading numbers *)

Section NumberFacts.
Import JsString JsNumber.

Lemma shr_1_nonneg (mrs : shr_record) :
  0 <= shr_m mrs -> 0 <= shr_m (shr_1 mrs).
Proof.
  destruct mrs as [m r s]. simpl.
  destruct m as [|p|p]; [| destruct p | destruct p]; simpl; lia.
Qed.

Lemma iter_shr_1_nonneg (p : positive) (mrs : shr_record) :
  0 <= shr_m mrs -> 0 <= shr_m (iter_pos shr_1 p mrs).
Proof.
  revert mrs. induction p as [p IH|p IH|]; intros mrs H; simpl.
  - apply IH, IH, shr_1_nonneg, H.
  - apply IH, IH, H.
  - apply shr_1_nonneg, H.
Qed.

Lemma shr_fexp_nonneg (m e : Z) (l : location) :
  0 <= m -> 0 <= shr_m (fst (shr_fexp prec emax m e l)).
Proof.
  intros H. unfold shr_fexp, shr.
  assert (H0 : 0 <= shr_m (shr_record_of_loc m l)).
  { destruct l as [|[| |]]; exact H. }
  destruct (fexp prec emax (Zdigits2 m + e) - e) as [|p|p]; simpl;
    [exact H0|apply iter_shr_1_nonneg, H0|exact H0].
Qed.

Lemma round_nearest_even_nonneg (m : Z) (l : location) :
  0 <= m -> 0 <= round_nearest_even m l.
Proof.
  intros H. destruct l as [|[| |]]; simpl; try lia.
  destruct (Z.even m); lia.
Qed.

Lemma binary_round_aux_not_NaN (s : bool) (m e : Z) (l : location) :
  0 <= m -> isNaN (binary_round_aux prec emax s m e l) = false.
Proof.
  intros H. unfold binary_round_aux.
  pose proof (shr_fexp_nonneg m e l H) as H1.
  destruct (shr_fexp prec emax m e l) as [mrs1 e1]. simpl in H1.
  pose proof (shr_fexp_nonneg _ e1 loc_Exact
                (round_nearest_even_nonneg _ (loc_of_shr_record mrs1) H1)) as H2.
  destruct (shr_fexp prec emax _ e1 loc_Exact) as [mrs2 e2]. simpl in H2.
  destruct (shr_m mrs2) as [|p|p]; [reflexivity| |lia].
  destruct (e2 <=? emax - prec); reflexivity.
Qed.

Lemma ofDecimal_not_NaN (neg : bool) (m e : Z) :
  isNaN (ofDecimal neg m e) = false.
Proof.
  unfold ofDecimal. destruct m as [|p|p]; try reflexivity.
  unfold SFdiv_core_binary.
  set (num := Z.pos p * 10 ^ Z.max e 0).
  set (den := 10 ^ Z.max (- e) 0).
  set (e' := Z.min _ _).
  set (m' := match 0 - 0 - e' with Z0 => num | Zpos _ => _ | Zneg _ => _ end).
  assert (Hnum : 0 <= num) by (subst num; apply Z.mul_nonneg_nonneg; [lia|apply Z.pow_nonneg; lia]).
  assert (Hden : 0 < den) by (subst den; apply Z.pow_pos_nonneg; lia).
  assert (Hm' : 0 <= m').
  { subst m'. destruct (0 - 0 - e'); [exact Hnum| |lia].
    apply Z.shiftl_nonneg, Hnum. }
  pose proof (Z.div_pos m' den Hm' Hden) as Hq.
  unfold Z.div in Hq. destruct (Z.div_eucl m' den) as [q r]. simpl in Hq.
  apply binary_round_aux_not_NaN, Hq.
Qed.

Lemma readWhole_not_NaN (neg : bool) (m1 n1 : Z) (s1 r : string) (x : number) :
  readWhole neg m1 n1 s1 = Some (x, r) -> isNaN x = false.
Proof.
  unfold readWhole. destruct (n1 =? 0); [discriminate|].
  destruct (readExponent s1) as [e s4]. intros [= <- _].
  apply ofDecimal_not_NaN.
Qed.

Lemma readFraction_not_NaN (neg : bool) (m1 n1 : Z) (s2 r : string) (x : number) :
  readFraction neg m1 n1 s2 = Some (x, r) -> isNaN x = false.
Proof.
  unfold readFraction. destruct (readDigits s2 m1 0) as [[m2 n2] s3].
  destruct ((n1 =? 0) && (n2 =? 0)); [discriminate|].
  destruct (readExponent s3) as [e s4]. intros [= <- _].
  apply ofDecimal_not_NaN.
Qed.

Lemma readUnsigned_not_NaN (neg : bool) (s r : string) (x : number) :
  readUnsigned neg s = Some (x, r) -> isNaN x = false.
Proof.
  unfold readUnsigned.
  destruct (startsWith s "Infinity"); [intros [= <- _]; reflexivity|].
  destruct (readDigits s 0 0) as [[m1 n1] s1].
  destruct s1 as [|c s2]; [apply readWhole_not_NaN|].
  destruct (Ascii.eqb c "."); [apply readFraction_not_NaN|apply readWhole_not_NaN].
Qed.

Lemma readDecimal_not_NaN (s r : string) (x : number) :
  readDecimal s = Some (x, r) -> isNaN x = false.
Proof.
  unfold readDecimal. destruct (readSign s) as [neg s'].
  apply readUnsigned_not_NaN.
Qed.

(** *** A decimal literal followed by white space *)

Lemma whiteSpace_is_no_literal_char (c : ascii) :
  isWhiteSpace c = true ->
  isDigit c = false
  /\ Ascii.eqb c "e" = false /\ Ascii.eqb c "E" = false
  /\ Ascii.eqb c "+" = false /\ Ascii.eqb c "-" = false
  /\ Ascii.eqb c "." = false.
Proof.
  destruct c as [[] [] [] [] [] [] [] []]; cbv; intros H;
    try discriminate H; repeat split.
Qed.

Section AfterTheLiteral.
Variable w : string.
Hypothesis w_white : Reading.allWhiteSpace w = true.

Lemma readDigits_app (s : string) (acc n a k : Z) (r : string) :
  readDigits s acc n = (a, k, r) ->
  readDigits (s ++ w) acc n = (a, k, (r ++ w)%string).
Proof.
  revert acc n. induction s as [|c s IH]; intros acc n; simpl.
  - intros [= <- <- <-]. destruct w as [|c w']; [reflexivity|].
    simpl in w_white. apply andb_true_iff in w_white as [Hc _].
    apply whiteSpace_is_no_literal_char in Hc as [Hd _].
    simpl. now rewrite Hd.
  - destruct (isDigit c); [apply IH|]. now intros [= <- <- <-].
Qed.

Lemma readSign_app (s : string) (neg : bool) (r : string) :
  readSign s = (neg, r) -> readSign (s ++ w) = (neg, (r ++ w)%string).
Proof.
  destruct s as [|c s]; simpl.
  - intros [= <- <-]. destruct w as [|c w']; [reflexivity|].
    simpl in w_white. apply andb_true_iff in w_white as [Hc _].
    apply whiteSpace_is_no_literal_char in Hc as (_ & _ & _ & Hp & Hm & _).
    simpl. now rewrite Hp, Hm.
  - destruct (Ascii.eqb c "-"); [now intros [= <- <-]|].
    destruct (Ascii.eqb c "+"); now intros [= <- <-].
Qed.

Lemma readExponent_app (s : string) (e : Z) (r : string) :
  readExponent s = (e, r) -> readExponent (s ++ w) = (e, (r ++ w)%string).
Proof.
  destruct s as [|c s1]; simpl.
  - intros [= <- <-]. destruct w as [|c w']; [reflexivity|].
    simpl in w_white. apply andb_true_iff in w_white as [Hc _].
    apply whiteSpace_is_no_literal_char in Hc as (_ & He & HE & _).
    simpl. now rewrite He, HE.
  - destruct (Ascii.eqb c "e" || Ascii.eqb c "E"); [|now intros [= <- <-]].
    destruct (readSign s1) as [neg s2] eqn:Es.
    rewrite (readSign_app _ _ _ Es).
    destruct (readDigits s2 0 0) as [[v k] s3] eqn:Ed.
    rewrite (readDigits_app _ _ _ _ _ _ Ed).
    destruct (k =? 0); now intros [= <- <-].
Qed.

Lemma readWhole_app (neg : bool) (m1 n1 : Z) (s1 r : string) (x : number) :
  readWhole neg m1 n1 s1 = Some (x, r) ->
  readWhole neg m1 n1 (s1 ++ w) = Some (x, (r ++ w)%string).
Proof.
  unfold readWhole. destruct (n1 =? 0); [discriminate|].
  destruct (readExponent s1) as [e s4] eqn:Ee.
  rewrite (readExponent_app _ _ _ Ee). now intros [= <- <-].
Qed.

Lemma readFraction_app (neg : bool) (m1 n1 : Z) (s2 r : string) (x : number) :
  readFraction neg m1 n1 s2 = Some (x, r) ->
  readFraction neg m1 n1 (s2 ++ w) = Some (x, (r ++ w)%string).
Proof.
  unfold readFraction.
  destruct (readDigits s2 m1 0) as [[m2 n2] s3] eqn:Ed.
  rewrite (readDigits_app _ _ _ _ _ _ Ed).
  destruct ((n1 =? 0) && (n2 =? 0)); [discriminate|].
  destruct (readExponent s3) as [e s4] eqn:Ee.
  rewrite (readExponent_app _ _ _ Ee). now intros [= <- <-].
Qed.

Lemma startsWith_app (t s : string) :
  (forall c, In c (list_ascii_of_string t) -> isWhiteSpace c = false) ->
  startsWith (s ++ w) t = startsWith s t.
Proof.
  revert s. induction t as [|b t IH]; intros s Ht; [reflexivity|].
  assert (Ht' : forall c, In c (list_ascii_of_string t) -> isWhiteSpace c = false).
  { intros c Hc. apply Ht. now right. }
  destruct s as [|a s]; simpl.
  - destruct w as [|c w']; [reflexivity|].
    simpl in w_white. apply andb_true_iff in w_white as [Hc _].
    destruct (Ascii.eqb_spec c b) as [->|_]; [|reflexivity].
    rewrite (Ht b (or_introl eq_refl)) in Hc. discriminate Hc.
  - now rewrite IH.
Qed.

Lemma readUnsigned_app (neg : bool) (s r : string) (x : number) :
  readUnsigned neg s = Some (x, r) ->
  readUnsigned neg (s ++ w) = Some (x, (r ++ w)%string).
Proof.
  unfold readUnsigned. rewrite startsWith_app.
  2:{ intros c Hc. simpl in Hc.
      repeat (destruct Hc as [<-|Hc]; [reflexivity|]). destruct Hc. }
  destruct (startsWith s "Infinity") eqn:Hinf.
  - apply startsWith_spec in Hinf as [post ->]. now intros [= <- <-].
  - destruct (readDigits s 0 0) as [[m1 n1] s1] eqn:Ed.
    rewrite (readDigits_app _ _ _ _ _ _ Ed).
    destruct s1 as [|c s2].
    + intros H. pose proof (readWhole_app _ _ _ _ _ _ H) as H'.
      simpl in H' |- *. destruct w as [|c w']; [exact H'|].
      simpl in w_white. apply andb_true_iff in w_white as [Hc _].
      apply whiteSpace_is_no_literal_char in Hc as (_ & _ & _ & _ & _ & Hdot).
      now rewrite Hdot.
    + simpl. destruct (Ascii.eqb c ".").
      * apply readFraction_app.
      * intros H. exact (readWhole_app _ _ _ _ _ _ H).
Qed.

Lemma readDecimal_app (s r : string) (x : number) :
  readDecimal s = Some (x, r) ->
  readDecimal (s ++ w) = Some (x, (r ++ w)%string).
Proof.
  unfold readDecimal. destruct (readSign s) as [neg s'] eqn:Es.
  rewrite (readSign_app _ _ _ Es). apply readUnsigned_app.
Qed.

End AfterTheLiteral.

Lemma trimEnd_split (u : string) :
  exists w, u = (trimEnd u ++ w)%string /\ Reading.allWhiteSpace w = true.
Proof.
  induction u as [|c u (w & E & W)].
  - now exists EmptyString.
  - cbn [trimEnd]. destruct (trimEnd u) as [|d r].
    + simpl in E. subst u. destruct (isWhiteSpace c) eqn:Hc.
      * exists (String c w). simpl. now rewrite Hc.
      * now exists w.
    + exists w. split; [|exact W]. simpl. simpl in E. now rewrite <- E.
Qed.

(** On a string that is a decimal literal, white space around it aside,
    [parseFloat] and [Number] read the same number. *)
Lemma decimal_literal_reads_alike (s : string) :
  Reading.spec_parsesAsNumber (Js.JString s) = true ->
  Js.parseFloat (Js.JString s) = Js.toNumber (Js.JString s)
  /\ isNaN (Js.toNumber (Js.JString s)) = false.
Proof.
  unfold Reading.spec_parsesAsNumber, Js.parseFloat, Js.toNumber.
  cbn [Js.toString]. unfold parseFloatString, stringToNumber, trim.
  destruct (trimEnd_split (trimStart s)) as (w & E & W).
  destruct (readDecimal (trimEnd (trimStart s))) as [[x r]|] eqn:R; [|discriminate].
  destruct r; [|discriminate]. intros _.
  rewrite E at 1. rewrite (readDecimal_app w W _ _ _ R).
  destruct (trimEnd (trimStart s)) as [|a t]; [discriminate R|].
  rewrite R. split; [reflexivity|]. exact (readDecimal_not_NaN _ _ _ R).
Qed.

End NumberFacts.

(** ** The numeric branch *)

Section NumericClaims.
Import JsString JsNumber Js RecordScreen Reading Scenarios.

Lemma trim_keeps_first_letter (rest : string) :
  exists r, trim (String "f" rest) = String "f" r.
Proof.
  unfold trim. change (trimStart (String "f" rest)) with (String "f" rest).
  cbn [trimEnd]. destruct (trimEnd rest) as [|c r].
  - now exists EmptyString.
  - now exists (String c r).
Qed.

(** A value whose text is a decimal literal is a number for [isNaN]. *)
Lemma spec_parsesAsNumber_not_NaN (v : JsValue) :
  spec_parsesAsNumber v = true -> Js.isNaN v = false.
Proof.
  destruct v as [| |b|x|s|lat lon| |name]; try discriminate; try reflexivity.
  - destruct b; reflexivity.
  - destruct x; try reflexivity. discriminate.
  - unfold spec_parsesAsNumber, Js.isNaN, toNumber, stringToNumber.
    cbn [toString]. destruct (trim s) as [|a t]; [reflexivity|].
    destruct (readDecimal (String a t)) as [[x r]|] eqn:E; [|discriminate].
    destruct r; [|discriminate]. intros _.
    exact (readDecimal_not_NaN _ _ _ E).
  - unfold spec_parsesAsNumber.
    change (toString (JNativeFunction name))
      with (String "f" ("unction " ++ name ++ "() { [native code] }")).
    destruct (trim_keeps_first_letter
                ("unction " ++ name ++ "() { [native code] }")) as [r ->].
    discriminate.
Qed.

(** The test of the numeric branch and its operators, for a field value
    that is not [null] or [undefined]: the branch is taken exactly when
    neither the field value nor the criterion's value is NaN for [isNaN],
    which is so whenever the texts of both are decimal literals; in the
    branch the operators [equals], [greater], [less], [greaterOrEqual] and
    [lessOrEqual] compare [parseFloat] of the field value with [parseFloat]
    of the criterion's value, and any other operator is not satisfied. *)
Theorem numeric_mode_gate_and_operators
    (record : JsRecord) (c : Criterion) :
  isNullish (get (values record) (field c)) = false ->
  (numericMode (get (values record) (field c)) (value c) = true <->
   JsNumber.isNaN (toNumber (get (values record) (field c))) = false
   /\ JsNumber.isNaN (toNumber (value c)) = false)
  /\ (spec_parsesAsNumber (get (values record) (field c)) = true ->
      spec_parsesAsNumber (value c) = true ->
      numericMode (get (values record) (field c)) (value c) = true)
  /\ (numericMode (get (values record) (field c)) (value c) = true ->
      (operator c = "equals" ->
         evalCriterion record c
         = JsNumber.eqb (parseFloat (get (values record) (field c)))
                        (parseFloat (value c)))
      /\ (operator c = "greater" ->
            evalCriterion record c
            = JsNumber.ltb (parseFloat (value c))
                           (parseFloat (get (values record) (field c))))
      /\ (operator c = "less" ->
            evalCriterion record c
            = JsNumber.ltb (parseFloat (get (values record) (field c)))
                           (parseFloat (value c)))
      /\ (operator c = "greaterOrEqual" ->
            evalCriterion record c
            = JsNumber.leb (parseFloat (value c))
                           (parseFloat (get (values record) (field c))))
      /\ (operator c = "lessOrEqual" ->
            evalCriterion record c
            = JsNumber.leb (parseFloat (get (values record) (field c)))
                           (parseFloat (value c)))
      /\ (operator c <> "equals" -> operator c <> "greater" ->
          operator c <> "less" -> operator c <> "greaterOrEqual" ->
          operator c <> "lessOrEqual" ->
          evalCriterion record c = false)).
Proof.
  intros Hval.
  assert (Gate : forall v w, numericMode v w = true <->
            JsNumber.isNaN (toNumber v) = false
            /\ JsNumber.isNaN (toNumber w) = false).
  { intros v w. unfold numericMode, Js.isNaN.
    rewrite andb_true_iff, !negb_true_iff. reflexivity. }
  split; [apply Gate|]. split.
  - intros Hv Hw. apply Gate. split; apply spec_parsesAsNumber_not_NaN; assumption.
  - intros Hmode.
    rewrite (evalCriterion_numeric_mode record c Hval Hmode).
    unfold numericSwitch.
    repeat split; try (intros ->; reflexivity).
    intros H1 H2 H3 H4 H5.
    apply String.eqb_neq in H1, H2, H3, H4, H5.
    now rewrite H1, H2, H3, H4, H5.
Qed.

(** The field value ["10"] against [greater "5"]: the numeric branch is
    taken and the record is kept. *)
Lemma numeric_mode_ten_above_five :
  numericMode (JString "10") (JString "5") = true
  /\ evalCriterion ten xAbove5 = true.
Proof.
  destruct (numeric_mode_gate_and_operators ten xAbove5)
    as (_ & Hgate & Htable); [reflexivity|].
  assert (Hmode : numericMode (JString "10") (JString "5") = true).
  { apply Hgate; reflexivity. }
  split; [exact Hmode|].
  destruct (Htable Hmode) as (_ & Hgreater & _).
  rewrite Hgreater; reflexivity.
Defined.

(** C2 (the code departs from it). A field left empty against the
    criterion [equals ""]: the empty string does not parse as a number, on
    either side, and [parseFloat] reads NaN from it, so the criterion should
    be decided on the texts, where [equals] holds.  The test
    [!isNaN(val) && !isNaN(c.value)] converts with [Number], for which the
    empty string is 0, so the numeric branch is taken; there NaN is
    compared with NaN, the criterion is not satisfied and [applyFilter]
    drops the record. *)
Theorem numeric_mode_taken_for_empty_text :
  spec_parsesAsNumber (get (values blank) (field xIsBlank)) = false
  /\ spec_parsesAsNumber (value xIsBlank) = false
  /\ parseFloat (get (values blank) (field xIsBlank)) = NaN
  /\ parseFloat (value xIsBlank) = NaN
  /\ stringSwitch (operator xIsBlank)
       (toLowerCase (toString (get (values blank) (field xIsBlank))))
       (toLowerCase (toString (value xIsBlank))) = true
  /\ numericMode (get (values blank) (field xIsBlank)) (value xIsBlank) = true
  /\ evalCriterion blank xIsBlank = false
  /\ records (applyFilter (fetchRecords initialState (ApiArray [blank]))
                [xIsBlank] (JString "AND"))
     = [].
Proof. repeat split. Qed.

(** The field value ["apple"] against [contains "app"]: the string branch
    is taken and the record is kept. *)
Example string_mode_apple_contains_app :
  numericMode (JString "apple") (JString "app") = false
  /\ evalCriterion apple xContainsApp = true.
Proof. split; reflexivity. Qed.

End NumericClaims.

(** ** The scenarios, end to end *)

Section ScenarioChecks.
Import Js RecordScreen Reading Scenarios.

(** Price at most 75 under ["AND"] keeps the second record only. *)
Lemma applyFilter_price_at_most_75 :
  records (applyFilter loaded [priceAtMost75] (JString "AND")) = [sydney].
Proof.
  destruct (applyFilter_keeps_matching_records_in_order
              loaded [priceAtMost75] (JString "AND"))
    as (_ & Hfilter & _); [discriminate|left; reflexivity|].
  rewrite Hfilter. reflexivity.
Defined.

(** With [undefined] for the logic, city starting with B or price above
    200 keeps the first record, as under ["OR"]. *)
Lemma applyFilter_undefined_logic_city_or_price :
  records (applyFilter loaded [cityStartsWithB; priceAbove200] JUndefined)
  = [brisbane].
Proof.
  destruct (applyFilter_any_other_logic_is_OR
              loaded [cityStartsWithB; priceAbove200] JUndefined)
    as (_ & _ & HOR); [discriminate|discriminate|].
  rewrite HOR. reflexivity.
Defined.

Example applyFilter_city_or_price :
  records (applyFilter loaded [cityStartsWithB; priceAbove200] (JString "OR"))
  = [brisbane].
Proof. reflexivity. Qed.

(** A record without the field [age] does not satisfy [age equals "5"]. *)
Example missing_age_not_satisfied : evalCriterion bare ageIs5 = false.
Proof. reflexivity. Qed.

End ScenarioChecks.

(** * Further properties of the code *)

(** ** Deleting, filtering and fetching together *)

Section ListsOverTime.
Import Js RecordScreen Reading Reading2 Scenarios.

Lemma Subsequence_trans {A : Type} (a b c : list A) :
  Subsequence a b -> Subsequence b c -> Subsequence a c.
Proof.
  intros Hab Hbc. revert a Hab.
  induction Hbc as [|x b c _ IH|x b c _ IH]; intros a Hab.
  - exact Hab.
  - constructor. apply IH, Hab.
  - inversion Hab; subst.
    + apply Subsequence_skip. now apply IH.
    + apply Subsequence_keep. now apply IH.
Qed.

Lemma filter_filter_comm {A : Type} (f g : A -> bool) (l : list A) :
  filter f (filter g l) = filter g (filter f l).
Proof.
  induction l as [|x l IH]; simpl; [reflexivity|].
  destruct (f x) eqn:Hf, (g x) eqn:Hg; simpl; rewrite ?Hf, ?Hg, IH; reflexivity.
Qed.

Lemma filter_idempotent {A : Type} (f : A -> bool) (l : list A) :
  filter f (filter f l) = filter f l.
Proof.
  induction l as [|x l IH]; simpl; [reflexivity|].
  destruct (f x) eqn:Hf; simpl; rewrite ?Hf, IH; reflexivity.
Qed.

Lemma filter_implied_Subsequence {A : Type} (f g : A -> bool) (l : list A) :
  (forall x, In x l -> f x = true -> g x = true) ->
  Subsequence (filter f l) (filter g l).
Proof.
  induction l as [|x l IH]; intros H; simpl; [constructor|].
  assert (IH' : Subsequence (filter f l) (filter g l)).
  { apply IH. intros y Hy. apply H. now right. }
  destruct (f x) eqn:Hf.
  - rewrite (H x (or_introl eq_refl) Hf). now constructor.
  - destruct (g x); [constructor|]; exact IH'.
Qed.

(** X1. A delete the server accepted removes from both lists exactly the
    records with that id: what stays is what was there with another id, in
    the same order.  A delete the server refused changes nothing. *)
Theorem handleDelete_removes_exactly_that_id (st : State) (recordId : Z) :
  (forall r, In r (records (handleDelete st recordId true)) <->
             In r (records st) /\ id r <> recordId)
  /\ (forall r, In r (originalRecords (handleDelete st recordId true)) <->
                In r (originalRecords st) /\ id r <> recordId)
  /\ Subsequence (records (handleDelete st recordId true)) (records st)
  /\ Subsequence (originalRecords (handleDelete st recordId true))
                 (originalRecords st)
  /\ handleDelete st recordId false = st.
Proof.
  assert (H : forall l r,
            In r (filter (fun r => negb (id r =? recordId)) l) <->
            In r l /\ id r <> recordId).
  { intros l r. rewrite filter_In, negb_true_iff, Z.eqb_neq. reflexivity. }
  simpl. split; [intros r; apply H|].
  split; [intros r; apply H|].
  split; [apply filter_Subsequence|].
  split; [apply filter_Subsequence|reflexivity].
Qed.

(** X2. Deleting the same id twice is deleting it once, and two deletions
    give the same lists in either order. *)
Theorem handleDelete_idempotent_and_commutes (st : State) (a b : Z) :
  handleDelete (handleDelete st a true) a true = handleDelete st a true
  /\ handleDelete (handleDelete st a true) b true
     = handleDelete (handleDelete st b true) a true.
Proof.
  unfold handleDelete. simpl. split; f_equal;
    auto using filter_idempotent, filter_filter_comm.
Qed.

(** X3. Deleting a record while a filter is displayed gives the same two
    lists as deleting it first and applying the filter afterwards. *)
Theorem handleDelete_after_applyFilter (st : State)
    (criteria : list Criterion) (logic : JsValue) (recordId : Z) :
  handleDelete (applyFilter st criteria logic) recordId true
  = applyFilter (handleDelete st recordId true) criteria logic.
Proof.
  destruct criteria as [|c cs]; unfold handleDelete, applyFilter; simpl.
  - reflexivity.
  - f_equal. apply filter_filter_comm.
Qed.

Lemma step_without_refetch_keeps (P : JsRecord -> Prop) (st : State) (ev : Event) :
  noRefetch [ev] = true ->
  (forall r, In r (records st) \/ In r (originalRecords st) -> P r) ->
  forall r, In r (records (step st ev)) \/ In r (originalRecords (step st ev)) -> P r.
Proof.
  intros Hev Inv r.
  destruct ev as [[data| |]|criteria logic|recordId [|]]; simpl in *;
    try discriminate Hev; try apply Inv.
  - rewrite applyFilter_originalRecords. intros [H|H]; apply Inv; right; [|exact H].
    exact (Subsequence_In _ _ r (applyFilter_Subsequence st criteria logic) H).
  - rewrite !filter_In. intros [[H _]|[H _]]; apply Inv; auto.
Qed.

Lemma runFrom_without_refetch_keeps (P : JsRecord -> Prop) (evs : list Event)
    (st : State) :
  noRefetch evs = true ->
  (forall r, In r (records st) \/ In r (originalRecords st) -> P r) ->
  forall r, In r (records (runFrom st evs)) \/ In r (originalRecords (runFrom st evs)) -> P r.
Proof.
  revert st. induction evs as [|ev evs IH]; intros st Hevs Inv; [exact Inv|].
  simpl in Hevs. apply andb_true_iff in Hevs as [Hev Hevs].
  apply (IH (step st ev) Hevs).
  apply step_without_refetch_keeps; [simpl; now rewrite Hev|exact Inv].
Qed.

(** X4. Once a delete was accepted, no record with that id is in either
    list, whatever filters are applied, records deleted or fetches fail
    afterwards, until a fetch answers. *)
Theorem deleted_record_stays_away (st : State) (recordId : Z)
    (evs : list Event) :
  noRefetch evs = true ->
  forall r,
    In r (records (runFrom (handleDelete st recordId true) evs))
    \/ In r (originalRecords (runFrom (handleDelete st recordId true) evs)) ->
    id r <> recordId.
Proof.
  intros Hevs. apply runFrom_without_refetch_keeps; [exact Hevs|].
  intros r. simpl. rewrite !filter_In, !negb_true_iff, !Z.eqb_neq. tauto.
Qed.

Lemma deleted_record_stays_away_example :
  noRefetch [FilterApplied [cityIsSydney] (JString "OR"); FilterApplied [] JUndefined]
  = true
  /\ id sydney <> 1.
Proof.
  split; [reflexivity|].
  apply (deleted_record_stays_away loaded 1
           [FilterApplied [cityIsSydney] (JString "OR"); FilterApplied [] JUndefined]
           eq_refl sydney).
  left. simpl. now left.
Defined.

(** X5. After a fetch that returned an array, and until the next fetch
    that answers, the snapshot is the fetched array with some records left
    out and the others in their order, and so is the displayed list. *)
Theorem lists_come_from_last_fetch (st : State) (data : list JsRecord)
    (evs : list Event) :
  noRefetch evs = true ->
  Subsequence (originalRecords (runFrom (fetchRecords st (ApiArray data)) evs)) data
  /\ Subsequence (records (runFrom (fetchRecords st (ApiArray data)) evs)) data.
Proof.
  intros Hevs.
  assert (G : forall st0,
            Subsequence (records st0) (originalRecords st0) ->
            Subsequence (originalRecords st0) data ->
            Subsequence (originalRecords (runFrom st0 evs)) data).
  { induction evs as [|ev evs IH]; intros st0 H1 H2; [exact H2|].
    simpl in Hevs. apply andb_true_iff in Hevs as [Hev Hevs].
    apply (IH Hevs (step st0 ev)); [now apply step_keeps_Subsequence|].
    destruct ev as [[d| |]|criteria logic|recordId [|]]; simpl;
      try discriminate Hev; try exact H2.
    - now rewrite applyFilter_originalRecords.
    - eapply Subsequence_trans; [apply filter_Subsequence|exact H2]. }
  assert (O : Subsequence
                (originalRecords (runFrom (fetchRecords st (ApiArray data)) evs))
                data).
  { apply G; simpl; apply Subsequence_refl. }
  split; [exact O|].
  eapply Subsequence_trans; [|exact O].
  apply runFrom_keeps_Subsequence. simpl. apply Subsequence_refl.
Qed.

Lemma lists_come_from_last_fetch_example :
  noRefetch [DeletePressed 1 true; FilterApplied [priceAtMost75] (JString "AND")]
  = true
  /\ Subsequence
       (records (runFrom loaded
          [DeletePressed 1 true; FilterApplied [priceAtMost75] (JString "AND")]))
       [brisbane; sydney].
Proof.
  split; [reflexivity|].
  apply (lists_come_from_last_fetch initialState [brisbane; sydney]
           [DeletePressed 1 true; FilterApplied [priceAtMost75] (JString "AND")]
           eq_refl).
Defined.

End ListsOverTime.

(** ** More on the combinator and the operators *)

Section CriteriaLists.
Import JsNumber Js RecordScreen Reading Reading2 Scenarios.

Lemma keepRecord_same_criteria (cs cs' : list Criterion) (logic : JsValue)
    (r : JsRecord) :
  (forall c, In c cs <-> In c cs') ->
  keepRecord cs logic r = keepRecord cs' logic r.
Proof.
  intros H. unfold keepRecord. destruct (isAND logic).
  - destruct (every (evalCriterion r) cs) eqn:E1,
             (every (evalCriterion r) cs') eqn:E2; try reflexivity.
    + rewrite every_spec in E1. rewrite <- E2. symmetry. apply every_spec.
      intros c Hc. apply E1, H, Hc.
    + rewrite every_spec in E2. rewrite <- E1. apply every_spec.
      intros c Hc. apply E2, H, Hc.
  - destruct (some (evalCriterion r) cs) eqn:E1,
             (some (evalCriterion r) cs') eqn:E2; try reflexivity.
    + rewrite some_spec in E1. destruct E1 as (c & Hc & Hr).
      rewrite <- E2. symmetry. apply some_spec. exists c. split; [apply H, Hc|exact Hr].
    + rewrite some_spec in E2. destruct E2 as (c & Hc & Hr).
      rewrite <- E1. apply some_spec. exists c. split; [apply H, Hc|exact Hr].
Qed.

(** X6. The outcome of [applyFilter] depends on the criteria only as a
    set: their order and repetitions do not matter (the early exit of
    [every] and [some] is not observable). *)
Theorem applyFilter_ignores_order_and_repeats (st : State)
    (criteria criteria' : list Criterion) (logic : JsValue) :
  (forall c, In c criteria <-> In c criteria') ->
  applyFilter st criteria logic = applyFilter st criteria' logic.
Proof.
  intros H. destruct criteria as [|c cs], criteria' as [|c' cs'].
  - reflexivity.
  - exfalso. apply (proj2 (H c')). now left.
  - exfalso. apply (proj1 (H c)). now left.
  - unfold applyFilter. f_equal. apply filter_ext_in. intros r _.
    now apply keepRecord_same_criteria.
Qed.

Lemma applyFilter_ignores_order_and_repeats_example :
  applyFilter loaded [cityStartsWithB; priceAbove200; cityStartsWithB] (JString "AND")
  = applyFilter loaded [priceAbove200; cityStartsWithB] (JString "AND").
Proof.
  apply applyFilter_ignores_order_and_repeats.
  intros c. simpl. tauto.
Defined.

(** X7. Under ["AND"] more criteria keep fewer records: the result for a
    larger set of criteria is a subsequence of the result for a smaller
    one.  Under any other logic, once there is a criterion, more criteria
    keep more records. *)
Theorem applyFilter_more_criteria (st : State)
    (criteria criteria' : list Criterion) (logic : JsValue) :
  incl criteria criteria' ->
  Subsequence (records (applyFilter st criteria' (JString "AND")))
              (records (applyFilter st criteria (JString "AND")))
  /\ (criteria <> [] -> logic <> JString "AND" ->
      Subsequence (records (applyFilter st criteria logic))
                  (records (applyFilter st criteria' logic))).
Proof.
  intros Hincl. split.
  - destruct criteria as [|c cs]; [apply applyFilter_Subsequence|].
    assert (Hne : criteria' <> []).
    { intros ->. apply (Hincl c). now left. }
    rewrite !applyFilter_nonempty by (assumption || discriminate).
    apply filter_implied_Subsequence. intros r _.
    rewrite !keepRecord_AND. intros H x Hx. apply H, Hincl, Hx.
  - intros Hne Hlogic.
    assert (Hne' : criteria' <> []).
    { destruct criteria as [|c cs]; [congruence|].
      intros ->. apply (Hincl c). now left. }
    rewrite !applyFilter_nonempty by assumption.
    apply filter_implied_Subsequence. intros r _.
    rewrite !keepRecord_not_AND by assumption.
    intros (x & Hx & Hr). exists x. split; [apply Hincl, Hx|exact Hr].
Qed.

Lemma applyFilter_more_criteria_example :
  Subsequence
    (records (applyFilter loaded [cityStartsWithB; priceAbove200] (JString "AND")))
    (records (applyFilter loaded [cityStartsWithB] (JString "AND")))
  /\ Subsequence
       (records (applyFilter loaded [cityStartsWithB] (JString "OR")))
       (records (applyFilter loaded [cityStartsWithB; priceAbove200] (JString "OR"))).
Proof.
  destruct (applyFilter_more_criteria loaded [cityStartsWithB]
              [cityStartsWithB; priceAbove200] (JString "OR")) as [HAND HOR].
  { intros c [<-|[]]. now left. }
  split; [exact HAND|apply HOR; discriminate].
Defined.

Lemma SFcompare_antisym (a b : number) :
  SFcompare b a = option_map CompOpp (SFcompare a b).
Proof.
  destruct a as [sa|sa| |sa ma ea], b as [sb|sb| |sb mb eb]; simpl;
    try reflexivity;
    try (destruct sa; reflexivity);
    try (destruct sb; reflexivity);
    try (destruct sa, sb; reflexivity).
  destruct sa, sb; simpl; try reflexivity;
    rewrite (Z.compare_antisym ea eb); destruct (ea ?= eb); simpl;
    try reflexivity; f_equal;
    rewrite (Pos.compare_cont_antisym ma mb Eq); reflexivity.
Qed.

Lemma SFcompare_None (a b : number) :
  SFcompare a b = None <-> JsNumber.isNaN a = true \/ JsNumber.isNaN b = true.
Proof.
  destruct a as [sa|sa| |sa ma ea], b as [sb|sb| |sb mb eb]; simpl;
    split; try discriminate; auto; intros [H|H]; discriminate H.
Qed.

(** X8. In the numeric branch the five operators agree with one another
    on the same field and value: [greaterOrEqual] holds exactly when
    [greater] or [equals] does, [lessOrEqual] exactly when [less] or
    [equals] does, no two of [less], [equals], [greater] hold together, one
    of them holds when [parseFloat] reads a number on both sides, and none
    of the five holds when it reads NaN on a side. *)
Theorem numeric_operators_agree (record : JsRecord) (c : Criterion) :
  isNullish (get (values record) (field c)) = false ->
  numericMode (get (values record) (field c)) (value c) = true ->
  let holds op := evalCriterion record (withOperator c op) in
  holds "greaterOrEqual" = holds "greater" || holds "equals"
  /\ holds "lessOrEqual" = holds "less" || holds "equals"
  /\ holds "less" && holds "equals" = false
  /\ holds "greater" && holds "equals" = false
  /\ holds "less" && holds "greater" = false
  /\ (JsNumber.isNaN (parseFloat (get (values record) (field c))) = false ->
      JsNumber.isNaN (parseFloat (value c)) = false ->
      holds "less" || holds "equals" || holds "greater" = true)
  /\ (JsNumber.isNaN (parseFloat (get (values record) (field c))) = true
      \/ JsNumber.isNaN (parseFloat (value c)) = true ->
      holds "less" = false /\ holds "equals" = false /\ holds "greater" = false
      /\ holds "lessOrEqual" = false /\ holds "greaterOrEqual" = false).
Proof.
  intros Hval Hmode holds.
  assert (E : forall op, holds op
            = numericSwitch op (parseFloat (get (values record) (field c)))
                               (parseFloat (value c))).
  { intros op. exact (evalCriterion_numeric_mode record (withOperator c op) Hval Hmode). }
  rewrite !E. unfold numericSwitch. simpl.
  unfold JsNumber.eqb, JsNumber.ltb, JsNumber.leb, SFeqb, SFltb, SFleb.
  set (a := parseFloat (get (values record) (field c))).
  set (b := parseFloat (value c)).
  rewrite (SFcompare_antisym a b).
  pose proof (SFcompare_None a b) as HN.
  destruct (SFcompare a b) as [[| |]|]; simpl;
    repeat match goal with |- _ /\ _ => split end;
    try reflexivity;
    try (intros _ _; reflexivity);
    try (intros H; apply (proj2 HN) in H; discriminate H);
    try (intros Ha Hb; destruct (proj1 HN eq_refl) as [H|H]; congruence);
    try (intros _; repeat split; reflexivity).
Qed.

Lemma numeric_operators_agree_example :
  evalCriterion sydney (withOperator priceAtMost75 "greaterOrEqual")
  = evalCriterion sydney (withOperator priceAtMost75 "greater")
    || evalCriterion sydney (withOperator priceAtMost75 "equals").
Proof.
  destruct (numeric_operators_agree sydney priceAtMost75) as [H _];
    [reflexivity|reflexivity|exact H].
Defined.

End CriteriaLists.

(** ** Own properties, [Object.keys] and object spread *)

From Stdlib Require Import Permutation.

Section OwnProperties.
Import Js JsKeys.
Context {V : Type}.

Lemma lookupOwn_app (a b : list (string * V)) (k : string) :
  lookupOwn (a ++ b) k
  = match lookupOwn a k with Some v => Some v | None => lookupOwn b k end.
Proof.
  induction a as [|[k1 v1] a IH]; simpl; [reflexivity|].
  destruct (String.eqb k1 k); [reflexivity|exact IH].
Qed.

Lemma lookupOwn_insertByIndex (k : string) (v : V) (l : list (string * V))
    (k' : string) :
  lookupOwn (insertByIndex (k, v) l) k'
  = if String.eqb k k' then Some v else lookupOwn l k'.
Proof.
  induction l as [|[k1 v1] l IH]; simpl; [reflexivity|].
  destruct (indexOf k <=? indexOf k1) eqn:Hle; simpl; [reflexivity|].
  rewrite IH.
  destruct (String.eqb_spec k1 k') as [->|_]; [|reflexivity].
  destruct (String.eqb_spec k k') as [->|_]; [|reflexivity].
  rewrite Z.leb_refl in Hle. discriminate Hle.
Qed.

Lemma lookupOwn_sortByIndex (l : list (string * V)) (k : string) :
  lookupOwn (sortByIndex l) k = lookupOwn l k.
Proof.
  induction l as [|[k1 v1] l IH]; simpl; [reflexivity|].
  now rewrite lookupOwn_insertByIndex, IH.
Qed.

Lemma lookupOwn_filter_key (p : string -> bool) (o : list (string * V))
    (k : string) :
  lookupOwn (List.filter (fun e => p (fst e)) o) k
  = if p k then lookupOwn o k else None.
Proof.
  induction o as [|[k1 v1] o IH]; simpl; [now destruct (p k)|].
  destruct (p k1) eqn:Hp; simpl; rewrite IH;
    destruct (String.eqb_spec k1 k) as [->|_]; try reflexivity;
    now rewrite Hp.
Qed.

(** Enumerating the properties does not change what a key holds. *)
Lemma lookupOwn_ownEntries (o : list (string * V)) (k : string) :
  lookupOwn (ownEntries o) k = lookupOwn o k.
Proof.
  unfold ownEntries.
  rewrite lookupOwn_app, lookupOwn_sortByIndex.
  rewrite (lookupOwn_filter_key isArrayIndex).
  rewrite (lookupOwn_filter_key (fun key => negb (isArrayIndex key))).
  destruct (isArrayIndex k); simpl; [now destruct (lookupOwn o k)|reflexivity].
Qed.

Lemma lookupOwn_setProperty (o : list (string * V)) (k : string) (v : V)
    (k' : string) :
  lookupOwn (setProperty o k v) k'
  = if String.eqb k k' then Some v else lookupOwn o k'.
Proof.
  induction o as [|[k1 v1] o IH]; simpl; [reflexivity|].
  destruct (String.eqb_spec k1 k) as [->|Hk1]; simpl.
  - now destruct (String.eqb k k').
  - rewrite IH.
    destruct (String.eqb_spec k1 k') as [->|_]; [|reflexivity].
    destruct (String.eqb_spec k k') as [->|_]; [congruence|reflexivity].
Qed.

Lemma lookupOwn_Some_In (o : list (string * V)) (k : string) :
  In k (map fst o) <-> exists v, lookupOwn o k = Some v.
Proof.
  induction o as [|[k1 v1] o IH]; simpl.
  - split; [intros []|intros [v H]; discriminate H].
  - destruct (String.eqb_spec k1 k) as [->|Hk].
    + split; [intros _; now exists v1|now left].
    + rewrite <- IH. split; [intros [H|H]; [congruence|exact H]|now right].
Qed.

Lemma insertByIndex_Permutation (e : string * V) (l : list (string * V)) :
  Permutation (insertByIndex e l) (e :: l).
Proof.
  induction l as [|e' l IH]; simpl; [reflexivity|].
  destruct (indexOf (fst e) <=? indexOf (fst e')); [reflexivity|].
  rewrite IH. apply perm_swap.
Qed.

Lemma sortByIndex_Permutation (l : list (string * V)) :
  Permutation (sortByIndex l) l.
Proof.
  induction l as [|e l IH]; simpl; [reflexivity|].
  now rewrite insertByIndex_Permutation, IH.
Qed.

Lemma filter_both_Permutation (p : string * V -> bool) (l : list (string * V)) :
  Permutation (List.filter p l ++ List.filter (fun e => negb (p e)) l) l.
Proof.
  induction l as [|e l IH]; simpl; [reflexivity|].
  destruct (p e); simpl.
  - now constructor.
  - rewrite <- Permutation_middle. now constructor.
Qed.

Lemma ownEntries_Permutation (o : list (string * V)) :
  Permutation (ownEntries o) o.
Proof.
  unfold ownEntries. rewrite sortByIndex_Permutation.
  apply filter_both_Permutation.
Qed.

Lemma setProperty_keys (o : list (string * V)) (k : string) (v : V) (k' : string) :
  In k' (map fst (setProperty o k v)) <-> k' = k \/ In k' (map fst o).
Proof.
  induction o as [|[k1 v1] o IH]; simpl.
  - split; [intros [<-|[]]; now left|intros [->|[]]; now left].
  - destruct (String.eqb_spec k1 k) as [->|Hk]; simpl.
    + intuition (subst; auto).
    + rewrite IH. intuition (subst; auto).
Qed.

End OwnProperties.

Lemma getOwnProperty_lookupOwn (o : Js.JsObject) (k : string) :
  Js.getOwnProperty o k = JsKeys.lookupOwn o k.
Proof.
  induction o as [|[k1 v1] o IH]; simpl; [reflexivity|].
  now rewrite IH.
Qed.

(** ** The fields offered to the filter builder *)

Section FilterBuilderFields.
Import JsString JsNumber Js JsKeys RecordScreen RecordView Scenarios.

Lemma filterFields_names (st : State) (first : JsRecord) (rest : list JsRecord) :
  records st = first :: rest ->
  map name (filterFields st) = ownKeys (values first).
Proof.
  intros H. unfold filterFields. rewrite H, map_map. simpl. apply map_id.
Qed.

Lemma filterFields_In (st : State) (first : JsRecord) (rest : list JsRecord)
    (f : FieldOption) :
  records st = first :: rest ->
  (In f (filterFields st) <->
   exists v, getOwnProperty (values first) (name f) = Some v
             /\ type f = if isNaN v then "text" else "number").
Proof.
  intros H. unfold filterFields. rewrite H, in_map_iff.
  unfold ownKeys. split.
  - intros (k & <- & Hk). simpl.
    assert (Hin : In k (map fst (values first))).
    { eapply Permutation_in; [|exact Hk].
      apply Permutation_map, ownEntries_Permutation. }
    apply lookupOwn_Some_In in Hin as [v Hv].
    rewrite <- getOwnProperty_lookupOwn in Hv.
    exists v. unfold get. now rewrite Hv.
  - intros (v & Hv & Ht). exists (name f). split.
    + destruct f as [n t]. simpl in *. unfold get. rewrite Hv. now rewrite Ht.
    + eapply Permutation_in.
      * symmetry. apply Permutation_map, ownEntries_Permutation.
      * apply lookupOwn_Some_In. exists v. now rewrite <- getOwnProperty_lookupOwn.
Qed.

(** X9. The filter builder is offered exactly the own keys of the first
    displayed record, each once per property: an offered name is always an
    own property of that record, so its lookup there never reaches the
    prototype, and it is typed [number] exactly when [isNaN] of the value
    is false.  When no record is displayed (also because the filter in
    force matches nothing) no field is offered and the filter button is
    not shown. *)
Theorem filterFields_are_first_record_keys (st : State) :
  (forall first rest,
     records st = first :: rest ->
     Permutation (map name (filterFields st)) (map fst (values first))
     /\ (forall f,
           In f (filterFields st) <->
           exists v, getOwnProperty (values first) (name f) = Some v
                     /\ get (values first) (name f) = v
                     /\ type f = if isNaN v then "text" else "number"))
  /\ (records st = [] ->
      filterFields st = [] /\ filterButtonShown st = false)
  /\ (forall criteria logic,
        (forall r, In r (originalRecords st) ->
                   keepRecord criteria logic r = false) ->
        criteria <> [] ->
        filterFields (applyFilter st criteria logic) = []
        /\ filterButtonShown (applyFilter st criteria logic) = false).
Proof.
  split; [|split].
  - intros first rest H. split.
    + rewrite (filterFields_names st first rest H). unfold ownKeys.
      apply Permutation_map, ownEntries_Permutation.
    + intros f. rewrite (filterFields_In st first rest f H). split.
      * intros (v & Hv & Ht). exists v. unfold get. now rewrite Hv.
      * intros (v & Hv & _ & Ht). now exists v.
  - intros H. unfold filterFields, filterButtonShown. now rewrite H.
  - intros criteria logic Hnone Hne.
    assert (E : records (applyFilter st criteria logic) = []).
    { rewrite applyFilter_nonempty by assumption.
      induction (originalRecords st) as [|r l IH]; simpl; [reflexivity|].
      rewrite (Hnone r (or_introl eq_refl)). apply IH.
      intros r' Hr'. apply Hnone. now right. }
    unfold filterFields, filterButtonShown. now rewrite E.
Qed.

Lemma evalCriterion_string_operators_only (record : JsRecord) (c : Criterion) :
  numericMode (get (values record) (field c)) (value c) = false ->
  operator c <> "equals" -> operator c <> "contains" ->
  operator c <> "startswith" ->
  evalCriterion record c = false.
Proof.
  intros Hmode H1 H2 H3. unfold evalCriterion.
  destruct (isNullish _); [reflexivity|]. rewrite Hmode. unfold stringSwitch.
  apply String.eqb_neq in H1, H2, H3. now rewrite H1, H2, H3.
Qed.

Lemma evalCriterion_numeric_operators_only (record : JsRecord) (c : Criterion) :
  numericMode (get (values record) (field c)) (value c) = true ->
  operator c <> "equals" -> operator c <> "greater" -> operator c <> "less" ->
  operator c <> "greaterOrEqual" -> operator c <> "lessOrEqual" ->
  evalCriterion record c = false.
Proof.
  intros Hmode H1 H2 H3 H4 H5. unfold evalCriterion.
  destruct (isNullish _); [reflexivity|]. rewrite Hmode. unfold numericSwitch.
  apply String.eqb_neq in H1, H2, H3, H4, H5. now rewrite H1, H2, H3, H4, H5.
Qed.

(** X10. The type the builder shows for a field tells how the first
    displayed record is compared on it.  A field shown as [text] is always
    compared as text there, so [greater], [less], [greaterOrEqual] and
    [lessOrEqual] never hold; a field shown as [number] is compared
    numerically exactly when the criterion's value is a number for
    [isNaN], and then [contains] and [startswith] never hold. *)
Theorem offered_type_decides_comparison (st : State) (first : JsRecord)
    (rest : list JsRecord) (f : FieldOption) (c : Criterion) :
  records st = first :: rest ->
  In f (filterFields st) ->
  field c = name f ->
  (type f = "text" \/ type f = "number")
  /\ (type f = "text" ->
      numericMode (get (values first) (field c)) (value c) = false
      /\ (operator c = "greater" \/ operator c = "less"
          \/ operator c = "greaterOrEqual" \/ operator c = "lessOrEqual" ->
          evalCriterion first c = false))
  /\ (type f = "number" ->
      numericMode (get (values first) (field c)) (value c)
      = negb (isNaN (value c))
      /\ (isNaN (value c) = false ->
          operator c = "contains" \/ operator c = "startswith" ->
          evalCriterion first c = false)).
Proof.
  intros Hrec Hf Hfield.
  apply (filterFields_In st first rest f Hrec) in Hf as (v & Hv & Ht).
  assert (Hget : get (values first) (field c) = v).
  { rewrite Hfield. unfold get. now rewrite Hv. }
  rewrite Hget. unfold numericMode.
  destruct (isNaN v) eqn:Hnan; rewrite Ht.
  - split; [now left|]. split; [|discriminate].
    intros _. split; [reflexivity|].
    intros Hop. apply evalCriterion_string_operators_only.
    + rewrite Hget. unfold numericMode. now rewrite Hnan.
    + destruct Hop as [-> | [-> | [-> | ->]]]; discriminate.
    + destruct Hop as [-> | [-> | [-> | ->]]]; discriminate.
    + destruct Hop as [-> | [-> | [-> | ->]]]; discriminate.
  - split; [now right|]. split; [discriminate|].
    intros _. split; [reflexivity|].
    intros Hcv Hop. apply evalCriterion_numeric_operators_only.
    + rewrite Hget. unfold numericMode. now rewrite Hnan, Hcv.
    + destruct Hop as [-> | ->]; discriminate.
    + destruct Hop as [-> | ->]; discriminate.
    + destruct Hop as [-> | ->]; discriminate.
    + destruct Hop as [-> | ->]; discriminate.
    + destruct Hop as [-> | ->]; discriminate.
Qed.

Lemma offered_type_decides_comparison_example :
  evalCriterion brisbane
    {| field := "city"; operator := "greater"; value := JString "A" |} = false.
Proof.
  destruct (offered_type_decides_comparison loaded brisbane [sydney]
              {| name := "city"; type := "text" |}
              {| field := "city"; operator := "greater"; value := JString "A" |})
    as (_ & Htext & _).
  - reflexivity.
  - simpl. now left.
  - reflexivity.
  - apply Htext; [reflexivity|now left].
Defined.

End FilterBuilderFields.

(** ** Filling in and saving a record *)

Section SavingARecord.
Import JsString JsNumber Js JsKeys RecordScreen RecordForm.

Lemma get_own (o : JsObject) (k : string) (v : JsValue) :
  getOwnProperty o k = Some v -> get o k = v.
Proof. intros H. unfold get. now rewrite H. Qed.

Lemma getOwnProperty_handleChange (o : JsObject) (k : string) (v : JsValue)
    (k' : string) :
  getOwnProperty (handleChange o k v) k'
  = if String.eqb k k' then Some v else getOwnProperty o k'.
Proof.
  unfold handleChange, spread.
  rewrite !getOwnProperty_lookupOwn, lookupOwn_setProperty, lookupOwn_ownEntries.
  reflexivity.
Qed.

(** X11. [handleChange(key, value)] gives form values in which [key]
    holds [value] and every other key holds what it held; the keys are the
    old ones and [key]. *)
Theorem handleChange_sets_one_key (prev : JsObject) (key : string)
    (value : JsValue) :
  get (handleChange prev key value) key = value
  /\ (forall k, k <> key ->
        getOwnProperty (handleChange prev key value) k = getOwnProperty prev k
        /\ get (handleChange prev key value) k = get prev k)
  /\ (forall k, In k (ownKeys (handleChange prev key value)) <->
                k = key \/ In k (ownKeys prev)).
Proof.
  pose proof getOwnProperty_handleChange as L.
  assert (K : forall (o : JsObject) k, In k (ownKeys o) <-> In k (map fst o)).
  { intros o k. unfold ownKeys.
    split; apply Permutation_in, Permutation_map;
      [|symmetry]; apply ownEntries_Permutation. }
  split; [apply get_own; now rewrite L, String.eqb_refl|].
  split.
  - intros k Hk. apply not_eq_sym in Hk. apply String.eqb_neq in Hk.
    assert (E : getOwnProperty (handleChange prev key value) k
                = getOwnProperty prev k) by now rewrite L, Hk.
    split; [exact E|]. unfold get. now rewrite E.
  - intros k. rewrite !K. unfold handleChange, spread.
    rewrite setProperty_keys. fold (ownKeys prev). rewrite K. reflexivity.
Qed.

Lemma validate_None (formValues : JsObject) (fields : list FormField) :
  validate formValues fields = None <->
  (forall f, In f fields -> checkField formValues f = None).
Proof.
  induction fields as [|f fields IH]; simpl.
  - split; [intros _ f []|reflexivity].
  - destruct (checkField formValues f) eqn:Hf.
    + split; [discriminate|]. intros H.
      rewrite <- Hf. apply H. now left.
    + rewrite IH. split.
      * intros H g [<-|Hg]; auto.
      * intros H g Hg. apply H. now right.
Qed.

Lemma validate_Some (formValues : JsObject) (fields : list FormField)
    (message : string) :
  validate formValues fields = Some message <->
  (exists before f after,
     fields = (before ++ f :: after)%list
     /\ (forall g, In g before -> checkField formValues g = None)
     /\ checkField formValues f = Some message).
Proof.
  induction fields as [|f fields IH]; simpl.
  - split; [discriminate|]. intros ([|g before] & f & after & H & _); discriminate H.
  - destruct (checkField formValues f) eqn:Hf.
    + split.
      * intros [= ->]. exists [], f, fields. repeat split; auto. intros g [].
      * intros ([|g before] & f' & after & H & Hb & Hf').
        -- injection H as <- _. congruence.
        -- injection H as <- _. rewrite (Hb _ (or_introl eq_refl)) in Hf.
           discriminate Hf.
    + rewrite IH. split.
      * intros (before & f' & after & -> & Hb & Hf').
        exists (f :: before), f', after. repeat split; auto.
        intros g [<-|Hg]; auto.
      * intros ([|g before] & f' & after & H & Hb & Hf').
        -- injection H as <- _. congruence.
        -- injection H as <- ->. exists before, f', after. repeat split; auto.
           intros g' Hg'. apply Hb. now right.
Qed.

Lemma checkField_None (formValues : JsObject) (f : FormField) :
  checkField formValues f = None <->
  (required f = true -> isMissing (get formValues (name f)) = false)
  /\ (is_num f = true -> isNaN (get formValues (name f)) = false).
Proof.
  unfold checkField.
  destruct (required f), (isMissing (get formValues (name f))),
           (is_num f), (isNaN (get formValues (name f))); simpl;
    split; try discriminate; try reflexivity; try (intros [H1 H2]);
    try (now specialize (H1 eq_refl)); try (now specialize (H2 eq_refl));
    try (split; intros; congruence).
Qed.

(** X12. [handleAddRecord] calls [insertRecord] with
    [{form_id: id, values: formValues}] exactly when every field passes
    both checks: a required field holds something other than [undefined]
    and the empty string, and a numeric field holds a number for [isNaN].
    Otherwise it raises the alert of the first field, in the order of the
    form, that fails a check, and sends nothing. *)
Theorem handleAddRecord_saves_iff_every_field_passes (id : JsValue)
    (fields : list FormField) (formValues : JsObject) :
  (handleAddRecord id fields formValues
   = InsertRecord id
       [("form_id", BodyPrimitive id); ("values", BodyObject formValues)]
   <->
   forall f, In f fields ->
     (required f = true -> isMissing (get formValues (name f)) = false)
     /\ (is_num f = true -> isNaN (get formValues (name f)) = false))
  /\ (forall message,
        handleAddRecord id fields formValues = ValidationError message <->
        exists before f after,
          fields = (before ++ f :: after)%list
          /\ (forall g, In g before -> checkField formValues g = None)
          /\ checkField formValues f = Some message)
  /\ (forall formId newRecord,
        handleAddRecord id fields formValues = InsertRecord formId newRecord ->
        formId = id
        /\ newRecord
           = [("form_id", BodyPrimitive id); ("values", BodyObject formValues)]).
Proof.
  unfold handleAddRecord. split; [|split].
  - destruct (validate formValues fields) as [m|] eqn:Hv.
    + split; [discriminate|]. intros H.
      assert (Hn : validate formValues fields = None).
      { apply validate_None. intros f Hf. apply checkField_None, H, Hf. }
      congruence.
    + split; [|reflexivity]. intros _ f Hf.
      apply checkField_None. revert f Hf. now apply validate_None.
  - intros message. rewrite <- validate_Some.
    destruct (validate formValues fields); split; congruence.
  - intros formId newRecord.
    destruct (validate formValues fields); [discriminate|].
    intros [= <- <-]. split; reflexivity.
Qed.

(** X13. A numeric field that was never touched stops the record from
    being saved, whether the field is required or not (unless its name is
    one every object inherits), while one that holds the empty string
    passes the numeric check. *)
Theorem untouched_numeric_field_blocks_saving (id : JsValue)
    (fields : list FormField) (formValues : JsObject) (f : FormField) :
  In f fields ->
  is_num f = true ->
  getOwnProperty formValues (name f) = None ->
  getInherited (name f) = None ->
  (exists message, handleAddRecord id fields formValues = ValidationError message)
  /\ checkField formValues f
     = Some (name f ++ (if required f then " is required." else " must be numeric."))
  /\ (required f = false ->
      checkField (handleChange formValues (name f) (JString "")) f = None).
Proof.
  intros Hin Hnum Hown Hinh.
  assert (Hget : get formValues (name f) = JUndefined).
  { unfold get. now rewrite Hown, Hinh. }
  assert (Hcheck : checkField formValues f
     = Some (name f ++ (if required f then " is required." else " must be numeric."))).
  { unfold checkField. rewrite Hget, Hnum. now destruct (required f). }
  split; [|split].
  - unfold handleAddRecord.
    destruct (validate formValues fields) as [m|] eqn:Hv; [now exists m|].
    rewrite validate_None in Hv. rewrite (Hv f Hin) in Hcheck. discriminate Hcheck.
  - exact Hcheck.
  - intros Hreq. unfold checkField.
    rewrite (get_own _ _ (JString ""))
      by now rewrite getOwnProperty_handleChange, String.eqb_refl.
    now rewrite Hreq, Hnum.
Qed.

(** X14. In a record that was saved, every numeric field holds a number
    for [isNaN]; so, on a record with those values, a criterion on such a
    field takes the numeric branch exactly when the criterion's own value is
    a number for [isNaN]. *)
Theorem saved_numeric_fields_filter_numerically (id : JsValue)
    (fields : list FormField) (formValues : JsObject) (newRecord : Body)
    (f : FormField) (record : JsRecord) (c : Criterion) :
  handleAddRecord id fields formValues = InsertRecord id newRecord ->
  In f fields ->
  is_num f = true ->
  values record = formValues ->
  field c = name f ->
  isNaN (get (values record) (field c)) = false
  /\ numericMode (get (values record) (field c)) (value c)
     = negb (isNaN (value c)).
Proof.
  intros Hsave Hin Hnum Hvalues Hfield.
  assert (Hv : validate formValues fields = None).
  { unfold handleAddRecord in Hsave.
    now destruct (validate formValues fields). }
  rewrite validate_None in Hv.
  apply Hv, checkField_None in Hin as [_ H].
  rewrite Hvalues, Hfield. unfold numericMode. rewrite (H Hnum).
  split; reflexivity.
Qed.

Lemma untouched_numeric_field_blocks_saving_example :
  checkField [] {| name := "age"; required := false; is_num := true |}
  = Some "age must be numeric.".
Proof.
  apply (untouched_numeric_field_blocks_saving JNull
           [{| name := "age"; required := false; is_num := true |}] []
           {| name := "age"; required := false; is_num := true |});
    [now left|reflexivity|reflexivity|reflexivity].
Defined.

Lemma saved_numeric_fields_filter_numerically_example :
  numericMode (JString "42") (JString "18") = true.
Proof.
  apply (saved_numeric_fields_filter_numerically JNull
           [{| name := "age"; required := true; is_num := true |}]
           [("age", JString "42")]
           [("form_id", BodyPrimitive JNull);
            ("values", BodyObject [("age", JString "42")])]
           {| name := "age"; required := true; is_num := true |}
           {| id := 1; values := [("age", JString "42")] |}
           {| field := "age"; operator := "greater"; value := JString "18" |});
    [reflexivity|now left|reflexivity|reflexivity|reflexivity].
Defined.

End SavingARecord.

(** ** The request sent and the card shown *)

Section RequestsAndCards.
Import JsString JsNumber Js JsKeys RecordScreen RecordForm RecordView Api.
Variables API_BASE_URL JWT_TOKEN USERNAME : string.

(** X15. Every request carries the bearer token; it asks for the stored
    row back exactly when the method is POST or PATCH; and a body, when
    there is one, is sent with [username] set to the app's user, whatever
    the caller put under that key, and with every other key as given. *)
Theorem apiRequest_headers_and_username (endpoint method : string)
    (b : option Body) :
  let request := apiRequest API_BASE_URL JWT_TOKEN USERNAME endpoint method b in
  lookupOwn (headers (options request)) "Authorization"
  = Some ("Bearer " ++ JWT_TOKEN)
  /\ (lookupOwn (headers (options request)) "Prefer"
      = if String.eqb method "POST" || String.eqb method "PATCH"
        then Some "return=representation" else None)
  /\ match b, body (options request) with
     | None, None => True
     | Some given, Some sent =>
         lookupOwn sent "username" = Some (BodyPrimitive (JString USERNAME))
         /\ (forall k, k <> "username" -> lookupOwn sent k = lookupOwn given k)
         /\ (forall k, In k (ownKeys sent) <-> k = "username" \/ In k (ownKeys given))
     | _, _ => False
     end.
Proof.
  cbv zeta. unfold apiRequest. simpl. split; [|split].
  - destruct (String.eqb method "POST" || String.eqb method "PATCH"); reflexivity.
  - destruct (String.eqb method "POST" || String.eqb method "PATCH"); reflexivity.
  - destruct b as [given|]; [|exact I]. unfold spread. split; [|split].
    + now rewrite lookupOwn_setProperty.
    + intros k Hk. rewrite lookupOwn_setProperty, lookupOwn_ownEntries.
      apply not_eq_sym, String.eqb_neq in Hk. now rewrite Hk.
    + assert (K : forall (o : Body) k, In k (ownKeys o) <-> In k (map fst o)).
      { intros o k. unfold ownKeys.
        split; apply Permutation_in, Permutation_map;
          [|symmetry]; apply ownEntries_Permutation. }
      intros k. rewrite K, setProperty_keys. fold (ownKeys given).
      rewrite K. reflexivity.
Qed.

(** X16. Saving a record that passes validation sends one POST to
    [/record] whose body is exactly the form id under [form_id], the form
    values as they are under [values], and the app's user under
    [username]. *)
Theorem saving_sends_the_form_values (id : JsValue)
    (fields : list FormField) (formValues : JsObject)
    (formId : JsValue) (newRecord : Body) :
  handleAddRecord id fields formValues = InsertRecord formId newRecord ->
  insertRecord API_BASE_URL JWT_TOKEN USERNAME formId newRecord
  = {| url := API_BASE_URL ++ "/record";
       options :=
         {| method := "POST";
            headers :=
              [("Content-Type", "application/json");
               ("Authorization", "Bearer " ++ JWT_TOKEN);
               ("Prefer", "return=representation")];
            body :=
              Some [("form_id", BodyPrimitive id);
                    ("values", BodyObject formValues);
                    ("username", BodyPrimitive (JString USERNAME))] |} |}.
Proof.
  unfold handleAddRecord.
  destruct (validate formValues fields); [discriminate|].
  intros [= <- <-]. reflexivity.
Qed.

(** X17. On a record card a string is shown as an image exactly when it
    begins with [file:///]; a location is shown as coordinates exactly when
    its latitude is neither zero nor NaN, and as JSON text otherwise; the
    card has one row for each own property of the record. *)
Theorem valueView_image_and_location (v : JsValue) :
  (forall uri,
     valueView v = ImagePreview uri <->
     v = JString uri /\ exists rest, uri = "file:///" ++ rest)
  /\ (forall latitude longitude,
        valueView v = Coordinates latitude longitude <->
        v = JGeoPoint latitude longitude
        /\ latitude <> S754_nan
        /\ (forall sign, latitude <> S754_zero sign))
  /\ (forall latitude longitude,
        v = JGeoPoint latitude longitude ->
        latitude = S754_nan \/ (exists sign, latitude = S754_zero sign) ->
        valueView v = JsonText v)
  /\ (forall record,
        Permutation (map fst (recordCard record)) (map fst (values record))).
Proof.
  split; [|split; [|split]].
  - intros uri. destruct v; cbn [valueView]; try (split; [discriminate|intros [H _]; discriminate H]).
    + destruct (startsWith s "file:///") eqn:Hs.
      * apply startsWith_spec in Hs. split.
        -- intros H. injection H as E. subst uri. now split.
        -- intros [H _]. injection H as E. now subst uri.
      * split; [discriminate|]. intros [H1 H2].
        injection H1 as E. subst uri.
        apply startsWith_spec in H2. congruence.
    + destruct (numberTruthy latitude); split; try discriminate;
        intros [H _]; discriminate H.
  - intros lat lon. destruct v; cbn [valueView];
      try (split; [discriminate|intros [H _]; discriminate H]).
    + destruct (startsWith s "file:///"); split; try discriminate;
        intros [H _]; discriminate H.
    + destruct latitude; simpl; split;
        try discriminate;
        try (intros [= <- <-]; repeat split; discriminate);
        try (now intros [[= <- <-] _]);
        intros [[= <- <-] [H1 H2]]; congruence.
  - intros lat lon -> [->|[sign ->]]; reflexivity.
  - intros record. unfold recordCard. rewrite map_map. simpl.
    apply Permutation_map, ownEntries_Permutation.
Qed.

End RequestsAndCards.

Section RequestExample.
Import Js RecordForm Api.

Lemma saving_sends_the_form_values_example :
  body (options (insertRecord "https://forms.example/api" "token" "student" JNull
                   [("form_id", BodyPrimitive JNull);
                    ("values", BodyObject [("age", JString "42")])]))
  = Some [("form_id", BodyPrimitive JNull);
          ("values", BodyObject [("age", JString "42")]);
          ("username", BodyPrimitive (JString "student"))].
Proof.
  rewrite (saving_sends_the_form_values
             "https://forms.example/api" "token" "student" JNull
             [{| RecordForm.name := "age"; required := true; is_num := true |}]
             [("age", JString "42")] JNull _ eq_refl).
  reflexivity.
Defined.

End RequestExample.
